(** * fable_library/task.py over a model of the asyncio host

    [task.py] adapts .NET-style tasks to Python's [asyncio].  Its own code is
    a dozen short functions; every one of them delegates to the host's event
    loop, futures, tasks and coroutines.  The development therefore has two
    layers:

    - the host: futures ([asyncio.Future]), tasks, coroutine objects, the
      event loop's ready queue, its self-pipe and its exception handler, and
      the per-thread current/running loop, each written after CPython's
      [asyncio] ([futures.py], [tasks.py], [base_events.py], [events.py],
      [runners.py]);
    - [task.py] itself, function by function, over that host.

    Everything is state passing over a [World]; a computation that raises
    returns [Raised e], and one that does not return (the loop thread parked
    in [select], a reference to an object that does not exist, no fuel left)
    returns [None]. *)

From Stdlib Require Import ZArith String Bool Lia.
From stdpp Require Import base option list.

Open Scope string_scope.
Open Scope list_scope.

(** ** Python values and exceptions *)

Inductive pyobj : Type :=
| PyNone
| PyBool (b : bool)
| PyInt (z : Z)
| PyStr (s : string)
| PyObj (addr : nat).

(** Instances of [Exception] that can leave a coroutine and be stored in a
    future: all but those of [StopIteration] itself. *)
Inductive Exception : Type :=
| InvalidStateError (msg : string)
| RuntimeError (msg : string)
| ValueError (msg : string)
| TypeError (msg : string)
| UserError (cls : string) (arg : pyobj).

(** [asyncio.CancelledError] derives from [BaseException], not from
    [Exception]. *)
Inductive BaseException : Type :=
| CancelledError
| Exc (e : Exception).

(** An instance of [Exception] as a caller may hand it over, which is what
    [SetException] is typed to accept: one of the above, or a
    [StopIteration], which the interpreter lets no coroutine raise and the
    host lets no future hold. *)
Inductive exception_object : Type :=
| Plain (e : Exception)
| Stop_iteration (value : pyobj).

(** How a call ends. *)
Inductive outcome (A : Type) : Type :=
| Returned (a : A)
| Raised (e : BaseException).
Arguments Returned {A} a.
Arguments Raised {A} e.

(** ** Objects of the host *)

Abbreviation fut_id := nat (only parsing).
Abbreviation coro_id := nat (only parsing).
Abbreviation loop_id := nat (only parsing).
Abbreviation thread_id := nat (only parsing).

Inductive awaitable : Type :=
| Aw_future (f : fut_id)
| Aw_coro (c : coro_id).

(** The body of an [async def], as far as the loop can see it: it returns,
    raises, awaits something and goes on with what the [await] gave
    (a value, or an exception raised at the [await]), or calls
    [asyncio.ensure_future]. *)
Inductive code : Type :=
| Return (v : pyobj)
| Raise (e : BaseException)
| Await (a : awaitable) (k : outcome pyobj -> code)
| Ensure_future (a : awaitable) (k : fut_id -> code).

(** [return await a]: what the [await] gives is returned, what it raises
    leaves the coroutine. *)
Definition return_outcome (o : outcome pyobj) : code :=
  match o with Returned v => Return v | Raised e => Raise e end.

Definition return_await (a : awaitable) : code := Await a return_outcome.

(** A coroutine object ([inspect.getcoroutinestate]). *)
Inductive coroutine : Type :=
| CORO_CREATED (body : code)
| CORO_RUNNING
| CORO_SUSPENDED (on : awaitable) (k : outcome pyobj -> code)
| CORO_CLOSED.

Inductive fut_state : Type := PENDING | CANCELLED | FINISHED.

(** Done callbacks the host itself registers on futures. *)
Inductive callback : Type :=
| Task_wakeup (t : fut_id)
| run_until_complete_cb.

#[global] Instance callback_eq_dec : EqDecision callback.
Proof. solve_decision. Defined.

(** [asyncio.Future]; a [Task] is a future with a coroutine. *)
Record Future : Type := mkFuture {
  f_loop : loop_id;
  f_state : fut_state;
  f_result : pyobj;
  f_exception : option BaseException;
  f_callbacks : list callback;
  f_log_traceback : bool;
  f_coro : option coro_id
}.

(** [TaskCompletionSource]: [__slots__ = "future", "loop"]. *)
Record TaskCompletionSource : Type := mkTCS {
  future : fut_id;
  loop : loop_id
}.

(** The three closures named [action] in [task.py], with what each
    captures. *)
Inductive action : Type :=
| SetResult_action (self : TaskCompletionSource) (value : pyobj)
| SetCancelled_action (self : TaskCompletionSource)
| SetException_action (self : TaskCompletionSource) (exception : exception_object).

(** An entry of the loop's ready queue. *)
Inductive handle : Type :=
| H_action (a : action)
| H_task_step (t : fut_id) (exc : option BaseException)
| H_done_callback (cb : callback) (f : fut_id)
| H_read_from_self.

(** What [call_exception_handler] is given. *)
Record report : Type := mkReport {
  r_message : string;
  r_exception : option BaseException
}.

Record Loop : Type := mkLoop {
  l_ready : list handle;
  l_closed : bool;
  l_stopping : bool;
  l_self_pipe : nat;       (* bytes written to the self-pipe and not yet read *)
  l_parked : bool;         (* the loop's thread sits in select() without timeout *)
  l_reported : list report (* the unhandled-failure channel *)
}.

(** Thread-local state of [asyncio.events]. *)
Record Thread : Type := mkThread {
  is_main : bool;
  running_loop : option loop_id;
  policy_loop : option loop_id;
  set_called : bool
}.

Record World : Type := mkWorld {
  futures : list Future;
  coros : list coroutine;
  loops : list Loop;
  threads : list Thread;
  (* the event loop policy creates a loop on the main thread when none was
     ever set there: CPython before 3.14 *)
  policy_creates_loop : bool
}.

Definition with_futures (fs : list Future) (w : World) : World :=
  mkWorld fs (coros w) (loops w) (threads w) (policy_creates_loop w).
Definition with_coros (cs : list coroutine) (w : World) : World :=
  mkWorld (futures w) cs (loops w) (threads w) (policy_creates_loop w).
Definition with_loops (ls : list Loop) (w : World) : World :=
  mkWorld (futures w) (coros w) ls (threads w) (policy_creates_loop w).
Definition with_threads (ts : list Thread) (w : World) : World :=
  mkWorld (futures w) (coros w) (loops w) ts (policy_creates_loop w).

(** ** The monad: state, exceptions, partiality *)

Definition M (A : Type) : Type := World -> option (outcome A * World).

Definition ret {A} (a : A) : M A := fun w => Some (Returned a, w).
Definition raise {A} (e : BaseException) : M A := fun w => Some (Raised e, w).
Definition stuck {A} : M A := fun _ => None.

Definition bind {A B} (m : M A) (k : A -> M B) : M B := fun w =>
  match m w with
  | Some (Returned a, w') => k a w'
  | Some (Raised e, w') => Some (Raised e, w')
  | None => None
  end.

(** [try: m] with the outcome in hand. *)
Definition try {A} (m : M A) : M (outcome A) := fun w =>
  match m w with
  | Some (o, w') => Some (Returned o, w')
  | None => None
  end.

(** [bind] and [try], seen from the result of their first part. *)
Definition continue {A B} (r : option (outcome A * World)) (k : A -> M B)
    : option (outcome B * World) :=
  match r with
  | Some (Returned a, w') => k a w'
  | Some (Raised e, w') => Some (Raised e, w')
  | None => None
  end.

Definition attempt {A} (r : option (outcome A * World))
    : option (outcome (outcome A) * World) :=
  match r with
  | Some (o, w') => Some (Returned o, w')
  | None => None
  end.

Notation "'let*' x ':=' m 'in' k" := (bind m (fun x => k))
  (at level 10, x pattern, m at level 100, k at level 200).
Notation "m ';;' k" := (bind m (fun _ => k))
  (at level 100, k at level 200, right associativity).

Fixpoint for_each {A} (xs : list A) (body : A -> M unit) : M unit :=
  match xs with
  | [] => ret tt
  | x :: xs' => body x ;; for_each xs' body
  end.

Definition get_future (f : fut_id) : M Future := fun w =>
  match futures w !! f with Some F => Some (Returned F, w) | None => None end.
Definition put_future (f : fut_id) (F : Future) : M unit := fun w =>
  Some (Returned tt, with_futures (<[f := F]> (futures w)) w).
Definition get_loop (l : loop_id) : M Loop := fun w =>
  match loops w !! l with Some L => Some (Returned L, w) | None => None end.
Definition put_loop (l : loop_id) (L : Loop) : M unit := fun w =>
  Some (Returned tt, with_loops (<[l := L]> (loops w)) w).
Definition get_coro (c : coro_id) : M coroutine := fun w =>
  match coros w !! c with Some C => Some (Returned C, w) | None => None end.
Definition put_coro (c : coro_id) (C : coroutine) : M unit := fun w =>
  Some (Returned tt, with_coros (<[c := C]> (coros w)) w).
Definition get_thread (t : thread_id) : M Thread := fun w =>
  match threads w !! t with Some T => Some (Returned T, w) | None => None end.
Definition put_thread (t : thread_id) (T : Thread) : M unit := fun w =>
  Some (Returned tt, with_threads (<[t := T]> (threads w)) w).

(** A new object gets an identity no live object has. *)
Definition new_future (F : Future) : M fut_id := fun w =>
  Some (Returned (length (futures w)), with_futures (futures w ++ [F]) w).
Definition new_coro (C : coroutine) : M coro_id := fun w =>
  Some (Returned (length (coros w)), with_coros (coros w ++ [C]) w).
Definition new_loop (L : Loop) : M loop_id := fun w =>
  Some (Returned (length (loops w)), with_loops (loops w ++ [L]) w).

(** ** The event loop: ready queue, self-pipe, exception handler *)

Definition with_ready (r : list handle) (L : Loop) : Loop :=
  mkLoop r (l_closed L) (l_stopping L) (l_self_pipe L) (l_parked L) (l_reported L).
Definition with_closed (b : bool) (L : Loop) : Loop :=
  mkLoop (l_ready L) b (l_stopping L) (l_self_pipe L) (l_parked L) (l_reported L).
Definition with_stopping (b : bool) (L : Loop) : Loop :=
  mkLoop (l_ready L) (l_closed L) b (l_self_pipe L) (l_parked L) (l_reported L).
Definition with_self_pipe (n : nat) (L : Loop) : Loop :=
  mkLoop (l_ready L) (l_closed L) (l_stopping L) n (l_parked L) (l_reported L).
Definition with_parked (b : bool) (L : Loop) : Loop :=
  mkLoop (l_ready L) (l_closed L) (l_stopping L) (l_self_pipe L) b (l_reported L).
Definition with_reported (rs : list report) (L : Loop) : Loop :=
  mkLoop (l_ready L) (l_closed L) (l_stopping L) (l_self_pipe L) (l_parked L) rs.

(** [BaseEventLoop._check_closed] *)
Definition check_closed (l : loop_id) : M unit :=
  let* L := get_loop l in
  if l_closed L then raise (Exc (RuntimeError "Event loop is closed")) else ret tt.

(** [BaseEventLoop.call_soon]: for the loop's own thread; it does not wake a
    parked loop. *)
Definition call_soon (l : loop_id) (h : handle) : M unit :=
  check_closed l ;;
  let* L := get_loop l in
  put_loop l (with_ready (l_ready L ++ [h]) L).

(** [BaseEventLoop._write_to_self] *)
Definition write_to_self (l : loop_id) : M unit :=
  let* L := get_loop l in
  put_loop l (with_self_pipe (S (l_self_pipe L)) L).

(** [BaseEventLoop.call_soon_threadsafe]: the hand-off from any thread. *)
Definition call_soon_threadsafe (l : loop_id) (h : handle) : M unit :=
  check_closed l ;;
  (let* L := get_loop l in
   put_loop l (with_ready (l_ready L ++ [h]) L)) ;;
  write_to_self l.

(** [BaseEventLoop.call_exception_handler], with the default handler, which
    logs and never raises. *)
Definition call_exception_handler (l : loop_id) (r : report) : M unit :=
  let* L := get_loop l in
  put_loop l (with_reported (l_reported L ++ [r]) L).

(** [BaseEventLoop.stop] *)
Definition loop_stop (l : loop_id) : M unit :=
  let* L := get_loop l in
  put_loop l (with_stopping true L).

(** [BaseEventLoop.create_future] *)
Definition create_future (l : loop_id) : M fut_id :=
  new_future (mkFuture l PENDING PyNone None [] false None).

(** ** Futures ([asyncio/futures.py]) *)

Definition with_state (s : fut_state) (F : Future) : Future :=
  mkFuture (f_loop F) s (f_result F) (f_exception F) (f_callbacks F)
           (f_log_traceback F) (f_coro F).
Definition with_result (v : pyobj) (F : Future) : Future :=
  mkFuture (f_loop F) (f_state F) v (f_exception F) (f_callbacks F)
           (f_log_traceback F) (f_coro F).
Definition with_exception (e : option BaseException) (F : Future) : Future :=
  mkFuture (f_loop F) (f_state F) (f_result F) e (f_callbacks F)
           (f_log_traceback F) (f_coro F).
Definition with_callbacks (cbs : list callback) (F : Future) : Future :=
  mkFuture (f_loop F) (f_state F) (f_result F) (f_exception F) cbs
           (f_log_traceback F) (f_coro F).
Definition with_log_traceback (b : bool) (F : Future) : Future :=
  mkFuture (f_loop F) (f_state F) (f_result F) (f_exception F) (f_callbacks F)
           b (f_coro F).

Definition is_pending (F : Future) : bool :=
  match f_state F with PENDING => true | _ => false end.

(** [Future.__schedule_callbacks] *)
Definition schedule_callbacks (f : fut_id) : M unit :=
  let* F := get_future f in
  match f_callbacks F with
  | [] => ret tt
  | cbs =>
      put_future f (with_callbacks [] F) ;;
      for_each cbs (fun cb => call_soon (f_loop F) (H_done_callback cb f))
  end.

(** [Future.set_result] *)
Definition Future_set_result (f : fut_id) (v : pyobj) : M unit :=
  let* F := get_future f in
  if is_pending F then
    put_future f (with_state FINISHED (with_result v F)) ;;
    schedule_callbacks f
  else raise (Exc (InvalidStateError "invalid state")).

(** [Future.set_exception]: the state is checked first, then a
    [StopIteration] is refused with [TypeError] and the future stays
    pending (CPython 3.11). *)
Definition Future_set_exception (f : fut_id) (exception : exception_object)
    : M unit :=
  let* F := get_future f in
  if is_pending F then
    match exception with
    | Stop_iteration _ =>
        raise (Exc (TypeError
                      "StopIteration interacts badly with generators and cannot be raised into a Future"))
    | Plain e =>
        put_future f (with_state FINISHED (with_exception (Some (Exc e)) F)) ;;
        schedule_callbacks f ;;
        let* F' := get_future f in
        put_future f (with_log_traceback true F')
    end
  else raise (Exc (InvalidStateError "invalid state")).

(** [Future.cancel] *)
Definition Future_cancel (f : fut_id) : M bool :=
  let* F := get_future f in
  put_future f (with_log_traceback false F) ;;
  if is_pending F then
    put_future f (with_state CANCELLED (with_log_traceback false F)) ;;
    schedule_callbacks f ;;
    ret true
  else ret false.

(** [Future.result] *)
Definition Future_result (f : fut_id) : M pyobj :=
  let* F := get_future f in
  match f_state F with
  | CANCELLED => raise CancelledError
  | PENDING => raise (Exc (InvalidStateError "Result is not ready."))
  | FINISHED =>
      put_future f (with_log_traceback false F) ;;
      match f_exception F with
      | Some e => raise e
      | None => ret (f_result F)
      end
  end.

(** [Future.exception] *)
Definition Future_exception (f : fut_id) : M (option BaseException) :=
  let* F := get_future f in
  match f_state F with
  | CANCELLED => raise CancelledError
  | PENDING => raise (Exc (InvalidStateError "Exception is not set."))
  | FINISHED =>
      put_future f (with_log_traceback false F) ;;
      ret (f_exception F)
  end.

(** [Future.add_done_callback] *)
Definition Future_add_done_callback (f : fut_id) (cb : callback) : M unit :=
  let* F := get_future f in
  if is_pending F then put_future f (with_callbacks (f_callbacks F ++ [cb]) F)
  else call_soon (f_loop F) (H_done_callback cb f).

(** [Future.__del__]: what the host runs when a future or task that nobody
    references any more is collected. *)
Definition Future_del (f : fut_id) : M unit :=
  let* F := get_future f in
  if f_log_traceback F then
    call_exception_handler (f_loop F)
      (mkReport (match f_coro F with
                 | Some _ => "Task exception was never retrieved"
                 | None => "Future exception was never retrieved"
                 end) (f_exception F))
  else ret tt.

(** ** Current and running loop ([asyncio/events.py]) *)

Definition fresh_loop : Loop := mkLoop [] false false 0 false [].

Definition new_event_loop : M loop_id := new_loop fresh_loop.

(** [set_event_loop] of the default policy *)
Definition set_event_loop (me : thread_id) (l : option loop_id) : M unit :=
  let* T := get_thread me in
  put_thread me (mkThread (is_main T) (running_loop T) l true).

Definition set_running_loop (me : thread_id) (l : option loop_id) : M unit :=
  let* T := get_thread me in
  put_thread me (mkThread (is_main T) l (policy_loop T) (set_called T)).

Definition host_policy_creates_loop : M bool := fun w =>
  Some (Returned (policy_creates_loop w), w).

(** [BaseDefaultEventLoopPolicy.get_event_loop] *)
Definition policy_get_event_loop (me : thread_id) : M loop_id :=
  let* T := get_thread me in
  let* creates := host_policy_creates_loop in
  (match policy_loop T with
   | None =>
       if creates && negb (set_called T) && is_main T then
         let* l := new_event_loop in set_event_loop me (Some l)
       else ret tt
   | Some _ => ret tt
   end) ;;
  let* T' := get_thread me in
  match policy_loop T' with
  | None => raise (Exc (RuntimeError "There is no current event loop in thread"))
  | Some l => ret l
  end.

(** [asyncio.get_event_loop] *)
Definition get_event_loop (me : thread_id) : M loop_id :=
  let* T := get_thread me in
  match running_loop T with
  | Some l => ret l
  | None => policy_get_event_loop me
  end.

(** [asyncio.get_running_loop] *)
Definition get_running_loop (me : thread_id) : M loop_id :=
  let* T := get_thread me in
  match running_loop T with
  | Some l => ret l
  | None => raise (Exc (RuntimeError "no running event loop"))
  end.

(** [loop.create_task]: a new [Task] whose first step is scheduled. *)
Definition loop_create_task (l : loop_id) (c : coro_id) : M fut_id :=
  let* t := new_future (mkFuture l PENDING PyNone None [] false (Some c)) in
  call_soon l (H_task_step t None) ;;
  ret t.

(** [asyncio.create_task] *)
Definition create_task (me : thread_id) (c : coro_id) : M fut_id :=
  let* l := get_running_loop me in
  loop_create_task l c.

(** [asyncio.ensure_future]: a future is returned as it is, a coroutine is
    wrapped in a task of the current loop. *)
Definition ensure_future (me : thread_id) (a : awaitable) : M fut_id :=
  match a with
  | Aw_future f => ret f
  | Aw_coro c => let* l := get_event_loop me in loop_create_task l c
  end.

(** ** Coroutine objects *)

(** What [coro.send] or [coro.throw] gives back to the task that drives the
    coroutine: a pending future it waits for, or [StopIteration] with the
    returned value.  An exception that leaves the coroutine is [Raised]. *)
Inductive sent : Type :=
| Yields (f : fut_id)
| StopIteration (v : pyobj).

(** [exec] runs the frame of the running coroutine [c] from [b] on;
    [send c exc] is [c.send(None)] when [exc] is [None] and [c.throw(e)]
    when it is [Some e].  [me] is the thread the loop runs on. *)
Fixpoint exec (fuel : nat) (me : thread_id) (c : coro_id) (b : code)
    {struct fuel} : M sent :=
  match fuel with
  | O => stuck
  | S n =>
      match b with
      | Return v => put_coro c CORO_CLOSED ;; ret (StopIteration v)
      | Raise e => put_coro c CORO_CLOSED ;; raise e
      | Ensure_future a k =>
          let* o := try (ensure_future me a) in
          match o with
          | Returned f => exec n me c (k f)
          | Raised e => put_coro c CORO_CLOSED ;; raise e
          end
      | Await (Aw_future f) k =>
          (* Future.__await__ *)
          let* F := get_future f in
          if is_pending F then
            put_coro c (CORO_SUSPENDED (Aw_future f) k) ;; ret (Yields f)
          else
            let* o := try (Future_result f) in
            exec n me c (k o)
      | Await (Aw_coro c') k =>
          let* C' := get_coro c' in
          match C' with
          | CORO_SUSPENDED _ _ =>
              exec n me c
                (k (Raised (Exc (RuntimeError "coroutine is being awaited already"))))
          | _ =>
              let* o := try (send n me c' None) in
              match o with
              | Returned (Yields f) =>
                  put_coro c (CORO_SUSPENDED (Aw_coro c') k) ;; ret (Yields f)
              | Returned (StopIteration v) => exec n me c (k (Returned v))
              | Raised e => exec n me c (k (Raised e))
              end
          end
      end
  end
with send (fuel : nat) (me : thread_id) (c : coro_id) (exc : option BaseException)
    {struct fuel} : M sent :=
  match fuel with
  | O => stuck
  | S n =>
      let* C := get_coro c in
      match C with
      | CORO_CREATED b =>
          match exc with
          | None => put_coro c CORO_RUNNING ;; exec n me c b
          | Some e => put_coro c CORO_CLOSED ;; raise e
          end
      | CORO_RUNNING => raise (Exc (ValueError "coroutine already executing"))
      | CORO_CLOSED =>
          raise (Exc (RuntimeError "cannot reuse already awaited coroutine"))
      | CORO_SUSPENDED (Aw_future f) k =>
          put_coro c CORO_RUNNING ;;
          match exc with
          | Some e => exec n me c (k (Raised e))
          | None =>
              let* F := get_future f in
              if is_pending F then
                exec n me c
                  (k (Raised (Exc (RuntimeError "await wasn't used with future"))))
              else
                let* o := try (Future_result f) in
                exec n me c (k o)
          end
      | CORO_SUSPENDED (Aw_coro c') k =>
          put_coro c CORO_RUNNING ;;
          let* o := try (send n me c' exc) in
          match o with
          | Returned (Yields f) =>
              put_coro c (CORO_SUSPENDED (Aw_coro c') k) ;; ret (Yields f)
          | Returned (StopIteration v) => exec n me c (k (Returned v))
          | Raised e => exec n me c (k (Raised e))
          end
      end
  end.

(** ** Tasks ([asyncio/tasks.py]) *)

(** [Task.__step] *)
Definition Task_step (fuel : nat) (me : thread_id) (t : fut_id)
    (exc : option BaseException) : M unit :=
  let* T := get_future t in
  match f_state T, f_coro T with
  | PENDING, Some c =>
      let* o := try (send fuel me c exc) in
      match o with
      | Returned (StopIteration v) => Future_set_result t v
      | Raised CancelledError => Future_cancel t ;; ret tt
      | Raised (Exc e) => Future_set_exception t (Plain e)
      | Returned (Yields f) =>
          let* F := get_future f in
          if negb (f_loop F =? f_loop T)%nat then
            call_soon (f_loop T)
              (H_task_step t
                 (Some (Exc (RuntimeError "Task got Future attached to a different loop"))))
          else if (f =? t)%nat then
            call_soon (f_loop T)
              (H_task_step t (Some (Exc (RuntimeError "Task cannot await on itself"))))
          else Future_add_done_callback f (Task_wakeup t)
      end
  | PENDING, None => stuck
  | _, _ => raise (Exc (InvalidStateError "_step(): already done"))
  end.

(** [Task.__wakeup] *)
Definition Task_wakeup_cb (fuel : nat) (me : thread_id) (t f : fut_id) : M unit :=
  let* o := try (Future_result f) in
  match o with
  | Raised e => Task_step fuel me t (Some e)
  | Returned _ => Task_step fuel me t None
  end.

(** [base_events._run_until_complete_cb] *)
Definition run_until_complete_cb_body (f : fut_id) : M unit :=
  let* F := get_future f in
  (match f_state F with
   | CANCELLED => ret tt
   | _ => Future_exception f ;; ret tt
   end) ;;
  loop_stop (f_loop F).

(** The bodies of the closures [action] of [task.py]:
    [self.future.set_result(value)], [self.future.cancel()],
    [self.future.set_exception(exception)]. *)
Definition run_action (a : action) : M unit :=
  match a with
  | SetResult_action self value => Future_set_result (future self) value
  | SetCancelled_action self => Future_cancel (future self) ;; ret tt
  | SetException_action self exception =>
      Future_set_exception (future self) exception
  end.

Definition run_callback (fuel : nat) (me : thread_id) (l : loop_id) (h : handle)
    : M unit :=
  match h with
  | H_action a => run_action a
  | H_task_step t exc => Task_step fuel me t exc
  | H_done_callback (Task_wakeup t) f => Task_wakeup_cb fuel me t f
  | H_done_callback run_until_complete_cb f => run_until_complete_cb_body f
  | H_read_from_self =>
      let* L := get_loop l in put_loop l (with_self_pipe 0 L)
  end.

(** [Handle._run]: an exception of the callback goes to the loop's
    exception handler and no further. *)
Definition Handle_run (fuel : nat) (me : thread_id) (l : loop_id) (h : handle)
    : M unit :=
  let* o := try (run_callback fuel me l h) in
  match o with
  | Returned _ => ret tt
  | Raised e =>
      call_exception_handler l (mkReport "Exception in callback" (Some e))
  end.

(** ** One turn of the loop ([BaseEventLoop._run_once]) *)

Inductive turn : Type := Parked | Ran.

(** [for i in range(ntodo): handle = self._ready.popleft(); handle._run()] *)
Fixpoint run_ready (fuel : nat) (me : thread_id) (l : loop_id) (ntodo : nat)
    : M unit :=
  match ntodo with
  | O => ret tt
  | S ntodo' =>
      let* L := get_loop l in
      match l_ready L with
      | [] => ret tt
      | h :: rest =>
          put_loop l (with_ready rest L) ;;
          Handle_run fuel me l h ;;
          run_ready fuel me l ntodo'
      end
  end.

(** With nothing ready the loop's thread parks in [select]; only a byte in
    the self-pipe takes it out again.  Otherwise [select] returns at once, a
    readable self-pipe queues its reader, and the handles that are ready now
    are run in order. *)
Definition run_once (fuel : nat) (me : thread_id) (l : loop_id) : M turn :=
  let* L := get_loop l in
  let asleep :=
    if l_parked L then true
    else match l_ready L with [] => negb (l_stopping L) | _ => false end in
  match asleep, l_self_pipe L with
  | true, O => put_loop l (with_parked true L) ;; ret Parked
  | _, pipe =>
      let ready :=
        match pipe with
        | O => l_ready L
        | S _ => l_ready L ++ [H_read_from_self]
        end in
      put_loop l (with_parked false (with_ready ready L)) ;;
      run_ready fuel me l (length ready) ;;
      ret Ran
  end.

(** [BaseEventLoop.run_forever], from its [while True] on: a parked loop
    does not come back by itself. *)
Fixpoint run_forever_loop (fuel : nat) (me : thread_id) (l : loop_id)
    : M unit :=
  match fuel with
  | O => stuck
  | S n =>
      let* t := run_once n me l in
      match t with
      | Parked => stuck
      | Ran =>
          let* L := get_loop l in
          if l_stopping L then ret tt else run_forever_loop n me l
      end
  end.

(** [BaseEventLoop.run_forever] *)
Definition run_forever (fuel : nat) (me : thread_id) (l : loop_id) : M unit :=
  check_closed l ;;
  let* T := get_thread me in
  match running_loop T with
  | Some _ =>
      raise (Exc (RuntimeError "Cannot run the event loop while another loop is running"))
  | None =>
      set_running_loop me (Some l) ;;
      let* o := try (run_forever_loop fuel me l) in
      (* finally: *)
      (let* L := get_loop l in put_loop l (with_stopping false L)) ;;
      set_running_loop me None ;;
      match o with
      | Returned _ => ret tt
      | Raised e => raise e
      end
  end.

(** [BaseEventLoop.run_until_complete] for a task of this loop. *)
Definition run_until_complete (fuel : nat) (me : thread_id) (l : loop_id)
    (t : fut_id) : M pyobj :=
  check_closed l ;;
  let* T := get_thread me in
  match running_loop T with
  | Some _ =>
      raise (Exc (RuntimeError "Cannot run the event loop while another loop is running"))
  | None =>
      Future_add_done_callback t run_until_complete_cb ;;
      let* o := try (run_forever fuel me l) in
      (* finally: future.remove_done_callback(_run_until_complete_cb) *)
      (let* F := get_future t in
       put_future t
         (with_callbacks
            (filter (fun cb => cb <> run_until_complete_cb) (f_callbacks F)) F)) ;;
      match o with Raised e => raise e | Returned _ => ret tt end ;;
      let* F := get_future t in
      if is_pending F then
        raise (Exc (RuntimeError "Event loop stopped before Future completed."))
      else Future_result t
  end.

(** ** [asyncio.run] ([asyncio/runners.py]) *)

Definition unfinished_task (l : loop_id) (F : Future) : bool :=
  match f_coro F with
  | Some _ => (f_loop F =? l)%nat && is_pending F
  | None => false
  end.

(** [runners._cancel_all_tasks]: with no unfinished task of the loop left it
    returns at once.  Cancelling the tasks a run leaves behind and driving
    them to their end is not part of this model: such a run is [None]. *)
Definition cancel_all_tasks (l : loop_id) : M unit := fun w =>
  if existsb (unfinished_task l) (futures w) then None
  else Some (Returned tt, w).

(** [BaseEventLoop.close] of a loop that is not running. *)
Definition loop_close (l : loop_id) : M unit :=
  let* L := get_loop l in
  if l_closed L then ret tt
  else put_loop l (with_closed true (with_ready [] L)).

(** [asyncio.run(main)] for a coroutine object [main]: refuse a thread that
    already runs a loop, else make a loop, run [main] as its task to the
    end, and close the loop.  (No asynchronous generators and no executor
    exist in the model, so their shutdown has nothing to do.) *)
Definition asyncio_run (fuel : nat) (me : thread_id) (main : coro_id) : M pyobj :=
  let* T := get_thread me in
  match running_loop T with
  | Some _ =>
      raise (Exc (RuntimeError
                    "asyncio.run() cannot be called from a running event loop"))
  | None =>
      let* l := new_event_loop in
      set_event_loop me (Some l) ;;
      let* t := loop_create_task l main in
      let* o := try (run_until_complete fuel me l t) in
      cancel_all_tasks l ;;
      set_event_loop me None ;;
      loop_close l ;;
      match o with
      | Returned v => ret v
      | Raised e => raise e
      end
  end.

(** * [task.py] *)

(** [TaskCompletionSource.__init__] *)
Definition TaskCompletionSource_init (me : thread_id) : M TaskCompletionSource :=
  let* l := get_event_loop me in
  let* f := create_future l in
  ret (mkTCS f l).

(** [TaskCompletionSource.SetResult] *)
Definition SetResult (self : TaskCompletionSource) (value : pyobj) : M unit :=
  call_soon_threadsafe (loop self) (H_action (SetResult_action self value)).

(** [TaskCompletionSource.SetCancelled] *)
Definition SetCancelled (self : TaskCompletionSource) : M unit :=
  call_soon_threadsafe (loop self) (H_action (SetCancelled_action self)).

(** [TaskCompletionSource.SetException] *)
Definition SetException (self : TaskCompletionSource)
    (exception : exception_object)
    : M unit :=
  call_soon_threadsafe (loop self) (H_action (SetException_action self exception)).

(** [TaskCompletionSource.get_task] *)
Definition get_task (me : thread_id) (self : TaskCompletionSource) : M awaitable :=
  let* f := ensure_future me (Aw_future (future self)) in
  ret (Aw_future f).

(** [async def zero(): return]: a call makes a coroutine object. *)
Definition zero : M awaitable :=
  let* c := new_coro (CORO_CREATED (Return PyNone)) in
  ret (Aw_coro c).

(** [async def from_result(value): return value] *)
Definition from_result (value : pyobj) : M awaitable :=
  let* c := new_coro (CORO_CREATED (Return value)) in
  ret (Aw_coro c).

(** The body of [get_value] in [get_awaiter]:
    [return await asyncio.ensure_future(value)]. *)
Definition get_value (value : awaitable) : code :=
  Ensure_future value (fun f => return_await (Aw_future f)).

(** [get_awaiter] *)
Definition get_awaiter (value : awaitable) : M awaitable :=
  let* c := new_coro (CORO_CREATED (get_value value)) in
  ret (Aw_coro c).

(** The body of [runner] in [get_result], [start] and [run_synchronously]:
    [return await value]. *)
Definition runner (value : awaitable) : code := return_await value.

(** [get_result] *)
Definition get_result (fuel : nat) (me : thread_id) (value : awaitable) : M pyobj :=
  let* c := new_coro (CORO_CREATED (runner value)) in
  asyncio_run fuel me c.

(** [start] *)
Definition start (me : thread_id) (task : awaitable) : M unit :=
  let* c := new_coro (CORO_CREATED (runner task)) in
  create_task me c ;;
  ret tt.

(** [run_synchronously] *)
Definition run_synchronously (fuel : nat) (me : thread_id) (task : awaitable)
    : M unit :=
  let* c := new_coro (CORO_CREATED (runner task)) in
  asyncio_run fuel me c ;;
  ret tt.

(** The three terminal transitions, and the call and the closure of each. *)
Inductive transition : Type :=
| To_completed (value : pyobj)
| To_cancelled
| To_faulted (exception : exception_object).

Definition call_transition (self : TaskCompletionSource) (tr : transition) : M unit :=
  match tr with
  | To_completed value => SetResult self value
  | To_cancelled => SetCancelled self
  | To_faulted exception => SetException self exception
  end.

Definition action_of (self : TaskCompletionSource) (tr : transition) : action :=
  match tr with
  | To_completed value => SetResult_action self value
  | To_cancelled => SetCancelled_action self
  | To_faulted exception => SetException_action self exception
  end.

(** The loop after a hand-off of [h]: one more handle, one more byte in the
    self-pipe. *)
Definition handed_off (h : handle) (L : Loop) : Loop :=
  with_self_pipe (S (l_self_pipe L)) (with_ready (l_ready L ++ [h]) L).

(** ** Worlds to run the code in *)

(** An idle, open loop 0 run by the main thread, and nothing else. *)
Definition world_running : World :=
  mkWorld [] [] [fresh_loop] [mkThread true (Some 0) (Some 0) true] false.

(** The same with a completion source whose future 0 is pending. *)
Definition tcs0 : TaskCompletionSource := mkTCS 0 0.

Definition world_pending : World :=
  mkWorld [mkFuture 0 PENDING PyNone None [] false None] []
          [fresh_loop] [mkThread true (Some 0) (Some 0) true] false.

(** ... and with that future completed with 1. *)
Definition world_completed : World :=
  mkWorld [mkFuture 0 FINISHED (PyInt 1) None [] false None] []
          [fresh_loop] [mkThread true (Some 0) (Some 0) true] false.

(** What awaiting a future gives, read off its cell: nothing yet, the
    result, the bound exception, or the cancellation signal. *)
Definition cell_outcome (F : Future) : option (outcome pyobj) :=
  match f_state F with
  | PENDING => None
  | CANCELLED => Some (Raised CancelledError)
  | FINISHED =>
      Some (match f_exception F with
            | Some e => Raised e
            | None => Returned (f_result F)
            end)
  end.

(** What each transition delivers to a pending future: nothing when the
    exception is a [StopIteration], which [set_exception] refuses. *)
Definition transition_outcome (tr : transition) : option (outcome pyobj) :=
  match tr with
  | To_completed value => Some (Returned value)
  | To_cancelled => Some (Raised CancelledError)
  | To_faulted (Plain e) => Some (Raised (Exc e))
  | To_faulted (Stop_iteration _) => None
  end.

(** The cell a pending future turns into under [set_result], [cancel] and
    [set_exception]. *)
Definition settle (tr : transition) (F : Future) : Future :=
  match tr with
  | To_completed value => with_state FINISHED (with_result value F)
  | To_cancelled => with_state CANCELLED (with_log_traceback false F)
  | To_faulted (Plain e) =>
      with_log_traceback true
        (with_state FINISHED (with_exception (Some (Exc e)) F))
  | To_faulted (Stop_iteration _) => F
  end.

(** A pending future and a pending task, as [create_future] and
    [create_task] make them. *)
Definition pending_future (l : loop_id) (cbs : list callback) : Future :=
  mkFuture l PENDING PyNone None cbs false None.
Definition pending_task (l : loop_id) (c : coro_id) : Future :=
  mkFuture l PENDING PyNone None [] false (Some c).

(** An observer [async def observer(): return await task], run as a task of
    the thread's running loop. *)
Definition observe (me : thread_id) (task : awaitable) : M fut_id :=
  let* c := new_coro (CORO_CREATED (return_await task)) in
  create_task me c.

(** [world_pending] with one observer of the source's task, suspended, and
    the loop's thread parked. *)
Definition world_observed : World :=
  mkWorld [pending_future 0 [Task_wakeup 1]; pending_task 0 0]
          [CORO_SUSPENDED (Aw_future 0) return_outcome]
          [mkLoop [] false false 0 true []]
          [mkThread true (Some 0) (Some 0) true] false.

(** Two observers of one source: both take the task, both wait for it, then
    the transition is made and the loop runs it and wakes them.  The result
    is the two handles and the two observers' tasks. *)
Definition fan_out (fuel : nat) (me : thread_id) (self : TaskCompletionSource)
    (tr : transition) : M ((awaitable * awaitable) * (fut_id * fut_id)) :=
  let* h1 := get_task me self in
  let* h2 := get_task me self in
  let* t1 := observe me h1 in
  let* t2 := observe me h2 in
  run_once fuel me (loop self) ;;
  call_transition self tr ;;
  run_once fuel me (loop self) ;;
  run_once fuel me (loop self) ;;
  ret ((h1, h2), (t1, t2)).


(** Every future belongs to a loop that exists. *)
Definition loops_exist (w : World) : Prop :=
  Forall (fun F => f_loop F < length (loops w)) (futures w).

(** The main thread before any loop was made or set, on a host whose policy
    creates loops (CPython before 3.14) and on one whose policy does not. *)
Definition world_legacy : World :=
  mkWorld [] [] [] [mkThread true None None false] true.
Definition world_bare : World :=
  mkWorld [] [] [] [mkThread true None None false] false.

(** The message of [asyncio.run] to a thread that runs a loop. *)
Definition run_in_running_loop : BaseException :=
  Exc (RuntimeError "asyncio.run() cannot be called from a running event loop").

(** The message of [get_event_loop] to a thread without a loop. *)
Definition no_current_loop : BaseException :=
  Exc (RuntimeError "There is no current event loop in thread").

(** ** What a run may be relied on to establish *)

(** If [m] returns or raises from [w], then [Q] holds of how it ended and of
    the world it left. *)
Definition wp {A} (m : M A) (Q : outcome A -> World -> Prop) (w : World) : Prop :=
  match m w with
  | Some (o, w') => Q o w'
  | None => True
  end.

(** What the coroutine of a task cannot change while the loop [l], run by
    thread [me], drives it: the cell of its own pending task [t], the state
    of the thread, and all of the loop but its ready queue. *)
Definition task_frame (t : fut_id) (T0 : Future) (l : loop_id) (L0 : Loop)
    (me : thread_id) (Th : Thread) (w : World) : Prop :=
  futures w !! t = Some T0 /\
  threads w !! me = Some Th /\
  exists rd, loops w !! l = Some (with_ready rd L0).

(** The drive of a coroutine came to its end: it did not yield. *)
Definition finished (o : outcome sent) : Prop :=
  match o with
  | Returned (Yields _) => False
  | _ => True
  end.

(** A coroutine that can be driven: it is not running and not closed. *)
Definition drivable (C : coroutine) : Prop :=
  match C with
  | CORO_CREATED _ | CORO_SUSPENDED _ _ => True
  | _ => False
  end.

(** The coroutines that are running in [w] are running in [w']. *)
Definition running_kept (w w' : World) : Prop :=
  forall c, coros w !! c = Some CORO_RUNNING -> coros w' !! c = Some CORO_RUNNING.

(** What driving the running coroutine [c] from [w] on comes to: other
    running coroutines keep running, and [c] is closed once it has
    finished. *)
Definition exec_post (c : coro_id) (w : World) (o : outcome sent) (w' : World)
    : Prop :=
  (forall c0, c0 <> c -> coros w !! c0 = Some CORO_RUNNING ->
              coros w' !! c0 = Some CORO_RUNNING) /\
  (finished o -> coros w' !! c = Some CORO_CLOSED).

(** The same for [send] and [throw] on a coroutine [c] in any state. *)
Definition send_post (c : coro_id) (w : World) (o : outcome sent) (w' : World)
    : Prop :=
  running_kept w w' /\
  (forall C, coros w !! c = Some C -> drivable C -> finished o ->
             coros w' !! c = Some CORO_CLOSED).

(** The calls of [task.py] that make a coroutine object, and the body each
    gives it. *)
Inductive coroutine_call : Type :=
| Call_zero
| Call_from_result (value : pyobj)
| Call_get_awaiter (value : awaitable).

Definition call_coroutine (cc : coroutine_call) : M awaitable :=
  match cc with
  | Call_zero => zero
  | Call_from_result value => from_result value
  | Call_get_awaiter value => get_awaiter value
  end.

Definition body_of (cc : coroutine_call) : code :=
  match cc with
  | Call_zero => Return PyNone
  | Call_from_result value => Return value
  | Call_get_awaiter value => get_value value
  end.

(** [async def twice(a): await a; return await a] *)
Definition await_twice (a : awaitable) : code :=
  Await a (fun o1 =>
             match o1 with
             | Returned _ => return_await a
             | Raised e => Raise e
             end).

(** What the second [await] of a coroutine object gets. *)
Definition reused : BaseException :=
  Exc (RuntimeError "cannot reuse already awaited coroutine").

(** A coroutine that raises at once, and a world with one such. *)
Definition boom : Exception := UserError "Boom" PyNone.

Definition world_failing : World :=
  mkWorld [] [CORO_CREATED (Raise (Exc boom))] [fresh_loop]
          [mkThread true (Some 0) (Some 0) true] false.

(** A call raises to its caller. *)
Definition raises {A} (m : M A) (w : World) : Prop :=
  exists e w', m w = Some (Raised e, w').

(** ** Further messages, handles and worlds *)

Definition different_loop : BaseException :=
  Exc (RuntimeError "Task got Future attached to a different loop").

Definition no_running_loop : BaseException :=
  Exc (RuntimeError "no running event loop").

Definition loop_is_closed : BaseException :=
  Exc (RuntimeError "Event loop is closed").

(** What the loop's exception handler is given when a closure of [task.py]
    finds its future already done. *)
Definition invalid_state_report : report :=
  mkReport "Exception in callback" (Some (Exc (InvalidStateError "invalid state"))).

Definition reports_of (tr : transition) : list report :=
  match tr with
  | To_cancelled => []
  | _ => [invalid_state_report]
  end.

(** What it is given when the closure finds its future pending: the
    [TypeError] of a refused [StopIteration], and nothing otherwise. *)
Definition stop_iteration_report : report :=
  mkReport "Exception in callback"
    (Some (Exc (TypeError
                  "StopIteration interacts badly with generators and cannot be raised into a Future"))).

Definition pending_reports (tr : transition) : list report :=
  match tr with
  | To_faulted (Stop_iteration _) => [stop_iteration_report]
  | _ => []
  end.

(** The cell of a done future after the closure of a further transition
    has run: [cancel] clears the mark of an exception not yet retrieved
    before it looks at the state, [set_result] and [set_exception] look at
    the state first. *)
Definition after_refused (tr : transition) (F : Future) : Future :=
  match tr with
  | To_cancelled => with_log_traceback false F
  | _ => F
  end.

(** The handles by which a loop drives the task [t]: its steps, and its
    wake-ups by the futures it waited for. *)
Definition handle_of_task (t : fut_id) (h : handle) : bool :=
  match h with
  | H_task_step t' _ => (t' =? t)%nat
  | H_done_callback (Task_wakeup t') _ => (t' =? t)%nat
  | _ => false
  end.

(** What such a handle sends into the coroutine [c] of its task: a step
    sends its argument, a wake-up what [future.result()] raised, if it
    raised. *)
Definition drive (fuel : nat) (me : thread_id) (c : coro_id) (h : handle)
    : M sent :=
  match h with
  | H_task_step _ exc => send fuel me c exc
  | H_done_callback (Task_wakeup _) f =>
      let* o := try (Future_result f) in
      match o with
      | Raised e => send fuel me c (Some e)
      | Returned _ => send fuel me c None
      end
  | _ => stuck
  end.

(** The handles of a sequence of transitions of one source, and the loop
    running a sequence of handles. *)
Definition transition_handles (self : TaskCompletionSource)
    (trs : list transition) : list handle :=
  map (fun tr => H_action (action_of self tr)) trs.

Definition run_handles (fuel : nat) (me : thread_id) (l : loop_id)
    (hs : list handle) : M unit :=
  for_each hs (Handle_run fuel me l).

(** Two cells with the same terminal value. *)
Definition same_terminal (F F' : Future) : Prop :=
  f_state F' = f_state F /\
  f_result F' = f_result F /\
  f_exception F' = f_exception F.

(** A thread that runs no loop, beside loop 0 and its future 0: pending,
    completed with 1, and with a closed loop. *)
Definition world_idle_pending : World :=
  mkWorld [pending_future 0 []] [] [fresh_loop]
          [mkThread true None (Some 0) true] false.

Definition world_idle_completed : World :=
  mkWorld [mkFuture 0 FINISHED (PyInt 1) None [] false None] [] [fresh_loop]
          [mkThread true None (Some 0) true] false.

Definition world_closed : World :=
  mkWorld [pending_future 0 []] [] [with_closed true fresh_loop]
          [mkThread true None (Some 0) true] false.

(** [world_pending] after [start] of the source's task, a turn of the loop,
    [SetException(boom)] and another turn: the future has failed and the
    wake-up of the suspended [runner] is ready. *)
Definition world_woken : World :=
  mkWorld [mkFuture 0 FINISHED PyNone (Some (Exc boom)) [] true None;
           pending_task 0 0]
          [CORO_SUSPENDED (Aw_future 0) return_outcome]
          [mkLoop [H_done_callback (Task_wakeup 1) 0] false false 0 false []]
          [mkThread true (Some 0) (Some 0) true] false.

(** A thread that runs no loop, and a coroutine that raises at once. *)
Definition world_bare_failing : World :=
  mkWorld [] [CORO_CREATED (Raise (Exc boom))] []
          [mkThread true None None false] false.

(** * Properties *)

(** ** Reading and writing the heaps *)

Lemma lookup_app_at {A} (xs l : list A) (i k : nat) :
  i = length xs + k -> (xs ++ l) !! i = l !! k.
Proof.
  intros ->. rewrite lookup_app_r by lia. f_equal. lia.
Qed.

Lemma insert_app_at {A} (xs l : list A) (i k : nat) (y : A) :
  i = length xs + k -> <[i := y]> (xs ++ l) = xs ++ <[k := y]> l.
Proof.
  intros ->. rewrite insert_app_r_alt by lia. do 2 f_equal. lia.
Qed.

Lemma lookup_head {A} (x : A) (l : list A) : (x :: l) !! 0 = Some x.
Proof. reflexivity. Qed.

Lemma lookup_tail {A} (x : A) (l : list A) (i : nat) : (x :: l) !! S i = l !! i.
Proof. reflexivity. Qed.

Lemma insert_head {A} (x y : A) (l : list A) : <[0 := y]> (x :: l) = y :: l.
Proof. reflexivity. Qed.

Lemma insert_tail {A} (x y : A) (l : list A) (i : nat) :
  <[S i := y]> (x :: l) = x :: <[i := y]> l.
Proof. reflexivity. Qed.

(** Lengths of updated heaps, for [lia]. *)
Ltac len :=
  repeat rewrite length_insert; repeat rewrite length_app; simpl; lia.

(** Reads of updated heaps: old objects under their updates, new objects
    behind them. *)
Ltac heap_read :=
  repeat first
    [ rewrite <- app_assoc
    | rewrite insert_app_l by len
    | rewrite (insert_app_at _ _ _ 0) by len
    | rewrite (insert_app_at _ _ _ 1) by len
    | rewrite (insert_app_at _ _ _ 2) by len
    | rewrite lookup_app_l by len
    | rewrite (lookup_app_at _ _ _ 0) by len
    | rewrite (lookup_app_at _ _ _ 1) by len
    | rewrite (lookup_app_at _ _ _ 2) by len
    | rewrite list_lookup_insert_eq by len
    | rewrite list_lookup_insert_ne by (first [ congruence | lia | len ])
    | rewrite list_insert_insert_eq
    | rewrite lookup_head
    | rewrite lookup_tail
    | rewrite insert_head
    | rewrite insert_tail
    | rewrite Nat.eqb_refl
    | rewrite (proj2 (Nat.eqb_neq _ _)) by (first [ congruence | lia | len ]) ].

Ltac reads :=
  repeat match goal with
         | H : _ !! _ = Some _ |- _ => rewrite H
         end.

Ltac norm :=
  repeat (progress
    (cbn [futures coros loops threads policy_creates_loop
          f_loop f_state f_result f_exception f_callbacks f_log_traceback f_coro
          l_ready l_closed l_stopping l_self_pipe l_parked l_reported
          is_main running_loop policy_loop set_called
          future loop length app negb andb orb fmap option_fmap option_map
          filter list_filter];
     heap_read; reads;
     cbv beta iota delta
       [with_futures with_coros with_loops with_threads
        with_ready with_closed with_stopping with_self_pipe with_parked
        with_reported with_state with_result with_exception with_callbacks
        with_log_traceback is_pending handed_off pending_future pending_task
        return_await return_outcome action_of settle cell_outcome
        transition_outcome fresh_loop runner get_value])).

(** ** Running the model on a world that is known in part *)

Lemma bind_run {A B} (m : M A) (k : A -> M B) (w : World) r1 r :
  m w = r1 -> continue r1 k = r -> bind m k w = r.
Proof. intros <- <-. reflexivity. Qed.

Lemma try_run {A} (m : M A) (w : World) r1 r :
  m w = r1 -> attempt r1 = r -> try m w = r.
Proof. intros <- <-. reflexivity. Qed.

(** A loop that is made now has no task yet. *)
Lemma no_task_of_new_loop (fs : list Future) (n l : nat) :
  Forall (fun F => f_loop F < n) fs -> n <= l ->
  existsb (unfinished_task l) fs = false.
Proof.
  intros Hfs Hl. induction Hfs as [|F fs HF _ IH]; [reflexivity|].
  cbn [existsb]. rewrite IH, orb_false_r. unfold unfinished_task.
  destruct (f_coro F); [|reflexivity].
  rewrite (proj2 (Nat.eqb_neq _ _)) by lia. reflexivity.
Qed.

Ltac head_of t :=
  lazymatch t with
  | ?f _ => head_of f
  | _ => t
  end.

Ltac more_fuel n :=
  tryif is_var n then (destruct n; [exfalso; lia|]) else idtac.

(** [ev] computes [m w] for a goal [m w = r], one operation at a time. *)
Ltac ev :=
  norm;
  lazymatch goal with
  | |- Some _ = _ => reflexivity
  | |- None = _ => reflexivity
  | |- bind _ _ _ = _ =>
      eapply bind_run; [ev | cbv beta iota delta [continue]; ev]
  | |- try _ _ = _ =>
      eapply try_run; [ev | cbv beta iota delta [attempt]; ev]
  | |- exec ?n _ _ _ _ = _ => more_fuel n; cbn [exec send]; ev
  | |- send ?n _ _ _ _ = _ =>
      first [ eassumption | more_fuel n; cbn [exec send]; ev ]
  | |- run_forever_loop ?n _ _ _ = _ => more_fuel n; cbn [run_forever_loop]; ev
  | |- cancel_all_tasks _ _ = _ =>
      unfold cancel_all_tasks; norm;
      repeat rewrite existsb_app; cbn [existsb];
      match goal with
      | H : Forall _ _ |- _ => rewrite (no_task_of_new_loop _ _ _ H) by len
      end;
      unfold unfinished_task; norm; reflexivity
  | |- for_each _ _ _ = _ => cbn [for_each]; ev
  | |- run_ready _ _ _ _ _ = _ => cbn [run_ready]; ev
  | |- ?lhs = _ => let h := head_of lhs in unfold h; ev
  end.

(** What a known result world holds. *)
Ltac holds := norm; repeat split; try reflexivity.

(** ** The hand-off *)

Lemma call_transition_open (w : World) (self : TaskCompletionSource) (L : Loop)
    (tr : transition) :
  loops w !! loop self = Some L ->
  l_closed L = false ->
  call_transition self tr w
  = Some (Returned tt,
          with_loops
            (<[loop self := handed_off (H_action (action_of self tr)) L]> (loops w)) w).
Proof.
  intros HL Hopen.
  pose proof (lookup_lt_Some _ _ _ HL) as HLlt.
  destruct L as [rd cl st pipe pk rep]. simpl in Hopen. subst cl.
  destruct tr; ev.
Qed.

(** C9, as amended.  [SetResult], [SetCancelled] and [SetException] on a
    source whose loop is open return [None] at once and do not touch the
    future cell (nor any future, coroutine or thread state): all they do is
    append their closure to the loop's ready queue and write one byte to its
    self-pipe, so the cell stays as it was until the loop runs that
    closure. *)
Theorem transition_call_only_enqueues
    (w : World) (self : TaskCompletionSource) (L : Loop) (tr : transition) :
  loops w !! loop self = Some L ->
  l_closed L = false ->
  exists w',
    call_transition self tr w = Some (Returned tt, w') /\
    futures w' = futures w /\
    coros w' = coros w /\
    threads w' = threads w /\
    loops w' = <[loop self := handed_off (H_action (action_of self tr)) L]> (loops w) /\
    l_ready (handed_off (H_action (action_of self tr)) L)
      = l_ready L ++ [H_action (action_of self tr)].
Proof.
  intros HL Hopen. eexists. split.
  - apply call_transition_open; eassumption.
  - repeat split.
Qed.

(** X12. On a source whose loop is closed, [SetResult], [SetCancelled] and
    [SetException] raise the loop's [RuntimeError] to their caller, and
    nothing at all changes: no closure is queued and the cell is untouched. *)
Lemma transition_call_on_closed_loop
    (w : World) (self : TaskCompletionSource) (L : Loop) (tr : transition) :
  loops w !! loop self = Some L ->
  l_closed L = true ->
  call_transition self tr w
  = Some (Raised (Exc (RuntimeError "Event loop is closed")), w).
Proof.
  intros HL Hclosed.
  destruct L as [rd cl st pipe pk rep]. simpl in Hclosed. subst cl.
  destruct tr; ev.
Qed.

Lemma transition_call_only_enqueues_witness :
  l_closed fresh_loop = false /\
  exists w',
    call_transition tcs0 To_cancelled world_pending = Some (Returned tt, w') /\
    futures w' = futures world_pending.
Proof.
  split; [reflexivity|].
  destruct (transition_call_only_enqueues world_pending tcs0 fresh_loop
              To_cancelled eq_refl eq_refl) as (w' & H1 & H2 & _).
  exists w'. split; assumption.
Defined.

(** C9 as stated fails on a loop that is closed: on [world_closed] a
    [SetResult] does not return [None], it raises the loop's [RuntimeError]
    to its caller, and queues nothing. *)
Lemma SetResult_on_closed_loop_raises :
  SetResult tcs0 (PyInt 1) world_closed
    = Some (Raised loop_is_closed, world_closed) /\
  raises (SetResult tcs0 (PyInt 1)) world_closed /\
  ~ exists w', SetResult tcs0 (PyInt 1) world_closed = Some (Returned tt, w').
Proof.
  split; [reflexivity|]. split.
  - eexists _, _. reflexivity.
  - intros (w' & H). vm_compute in H. discriminate H.
Qed.




(** ** Observers of a completion source *)

(** [get_task] gives the source's own future, and changes nothing. *)
Lemma get_task_is_future (w : World) (me : thread_id) (self : TaskCompletionSource) :
  get_task me self w = Some (Returned (Aw_future (future self)), w).
Proof. reflexivity. Qed.

(** [world_observed] is what the code makes of [world_pending]: the observer
    starts on the loop's first turn, suspends on the pending future, and the
    next turn parks the loop. *)
Lemma world_observed_reached :
  (let* h := get_task 0 tcs0 in
   observe 0 h ;;
   run_once 3 0 0 ;;
   run_once 3 0 0) world_pending
  = Some (Returned Parked, world_observed).
Proof. vm_compute. reflexivity. Qed.

Section Observer.

Variables (w : World) (self : TaskCompletionSource).
Variables (t : fut_id) (c : coro_id) (me : thread_id) (fuel : nat).
Variables (parked : bool) (reported : list report).

Hypothesis HF :
  futures w !! future self = Some (pending_future (loop self) [Task_wakeup t]).
Hypothesis HT : futures w !! t = Some (pending_task (loop self) c).
Hypothesis Hne : t <> future self.
Hypothesis Hc :
  coros w !! c = Some (CORO_SUSPENDED (Aw_future (future self)) return_outcome).
Hypothesis HL :
  loops w !! loop self = Some (mkLoop [] false false 0 parked reported).
Hypothesis Hfuel : 3 <= fuel.

(** The loop has nothing to do and parks. *)
Lemma idle_loop_parks :
  exists w', run_once fuel me (loop self) w = Some (Returned Parked, w').
Proof using HL.
  destruct parked; eexists; ev.
Qed.

(** The hand-off of any transition that a pending future takes wakes the
    loop; its first turn settles the future and schedules the observer's
    wake-up, its second turn resumes the observer, whose task ends as the
    transition says. *)
Lemma suspended_observer_resolves (tr : transition) (o : outcome pyobj) :
  transition_outcome tr = Some o ->
  exists w1 w2 w3,
    call_transition self tr w = Some (Returned tt, w1) /\
    run_once fuel me (loop self) w1 = Some (Returned Ran, w2) /\
    run_once fuel me (loop self) w2 = Some (Returned Ran, w3) /\
    futures w3 !! t = Some (settle tr (pending_task (loop self) c)) /\
    futures w3 !! future self
      = Some (with_log_traceback false (settle tr (pending_future (loop self) []))) /\
    coros w3 !! c = Some CORO_CLOSED /\
    l_reported <$> loops w3 !! loop self = Some reported.
Proof using HF HT Hne Hc HL Hfuel.
  pose proof (lookup_lt_Some _ _ _ HF) as HFlt.
  pose proof (lookup_lt_Some _ _ _ HT) as HTlt.
  pose proof (lookup_lt_Some _ _ _ HL) as HLlt.
  pose proof (lookup_lt_Some _ _ _ Hc) as Hclt.
  intros Htr.
  destruct parked; destruct tr as [v| |[e|v]]; try discriminate Htr;
    eexists _, _, _.
  all: split; [ev|].
  all: split; [ev|].
  all: split; [ev|].
  all: holds.
Qed.

(** Completing the future directly from another thread, without the
    hand-off, is lost on a parked loop: the wake-up is queued, but nothing
    takes the loop out of [select]. *)
Lemma direct_set_result_is_lost (v : pyobj) :
  parked = true ->
  exists w1 w2,
    Future_set_result (future self) v w = Some (Returned tt, w1) /\
    run_once fuel me (loop self) w1 = Some (Returned Parked, w2) /\
    futures w2 !! t = Some (pending_task (loop self) c).
Proof using HF HT Hne HL Hfuel.
  intros Hp. rewrite Hp in HL.
  pose proof (lookup_lt_Some _ _ _ HF) as HFlt.
  pose proof (lookup_lt_Some _ _ _ HT) as HTlt.
  pose proof (lookup_lt_Some _ _ _ HL) as HLlt.
  eexists _, _.
  split; [ev|]. split; [ev|]. holds.
Qed.

End Observer.

(** C2. A source with a pending future, and an observer task of the loop
    suspended in [return await] on it while the loop has nothing else to do
    (parked in [select] or about to).  [SetResult(v)] takes no part of any
    thread's state, so it may be called from any thread: it returns at once
    without touching a future, its byte in the self-pipe takes the loop out
    of [select], the loop's next turn completes the future with [v], and the
    turn after it resumes the observer, which returns [v]; nothing is
    reported as a failure. *)
Theorem cross_thread_SetResult_reaches_observer
    (w : World) (self : TaskCompletionSource) (v : pyobj)
    (t : fut_id) (c : coro_id) (me : thread_id) (fuel : nat)
    (parked : bool) (reported : list report) :
  futures w !! future self = Some (pending_future (loop self) [Task_wakeup t]) ->
  futures w !! t = Some (pending_task (loop self) c) ->
  t <> future self ->
  coros w !! c = Some (CORO_SUSPENDED (Aw_future (future self)) return_outcome) ->
  loops w !! loop self = Some (mkLoop [] false false 0 parked reported) ->
  3 <= fuel ->
  exists w1 w2 w3 T,
    SetResult self v w = Some (Returned tt, w1) /\
    futures w1 = futures w /\
    run_once fuel me (loop self) w1 = Some (Returned Ran, w2) /\
    run_once fuel me (loop self) w2 = Some (Returned Ran, w3) /\
    futures w3 !! t = Some T /\
    cell_outcome T = Some (Returned v) /\
    coros w3 !! c = Some CORO_CLOSED /\
    l_reported <$> loops w3 !! loop self = Some reported.
Proof.
  intros HF HT Hne Hc HL Hfuel.
  destruct (suspended_observer_resolves w self t c me fuel parked reported
              HF HT Hne Hc HL Hfuel (To_completed v) _ eq_refl)
    as (w1 & w2 & w3 & H1 & H2 & H3 & H4 & _ & H5 & H6).
  exists w1, w2, w3, (settle (To_completed v) (pending_task (loop self) c)).
  repeat split; try assumption.
  rewrite (call_transition_open _ _ _ _ HL eq_refl) in H1.
  injection H1 as <-. reflexivity.
Qed.

Lemma cross_thread_SetResult_witness :
  exists w1 w2 w3 T,
    SetResult tcs0 (PyInt 7) world_observed = Some (Returned tt, w1) /\
    futures w1 = futures world_observed /\
    run_once 3 0 0 w1 = Some (Returned Ran, w2) /\
    run_once 3 0 0 w2 = Some (Returned Ran, w3) /\
    futures w3 !! 1 = Some T /\
    cell_outcome T = Some (Returned (PyInt 7)) /\
    coros w3 !! 0 = Some CORO_CLOSED /\
    l_reported <$> loops w3 !! 0 = Some [].
Proof.
  apply (cross_thread_SetResult_reaches_observer
           world_observed tcs0 (PyInt 7) 1 0 0 3 true []);
    first [ reflexivity | discriminate | lia ].
Defined.




(** C4. Two calls of [get_task] on a source with a pending future give the
    same future, which any number of observers may await.  With two
    observers waiting on the two handles, whichever transition is then made
    leaves both observers' tasks alike, and as the transition says: both
    return the value, both are cancelled, both fail with the bound
    exception, or, where the host refuses the exception (a
    [StopIteration]) and the future stays pending, both are still
    waiting. *)
Theorem get_task_fan_out
    (w : World) (self : TaskCompletionSource) (tr : transition)
    (me : thread_id) (fuel : nat) (Th : Thread) (reported : list report) :
  futures w !! future self = Some (pending_future (loop self) []) ->
  loops w !! loop self = Some (mkLoop [] false false 0 false reported) ->
  threads w !! me = Some Th ->
  running_loop Th = Some (loop self) ->
  3 <= fuel ->
  exists w' t1 t2 T1 T2,
    fan_out fuel me self tr w
      = Some (Returned ((Aw_future (future self), Aw_future (future self)),
                        (t1, t2)), w') /\
    t1 <> t2 /\
    futures w' !! t1 = Some T1 /\
    futures w' !! t2 = Some T2 /\
    cell_outcome T1 = transition_outcome tr /\
    cell_outcome T2 = transition_outcome tr /\
    f_state T1 = f_state T2.
Proof.
  intros HF HL HTh Hrun Hfuel.
  pose proof (lookup_lt_Some _ _ _ HF) as HFlt.
  pose proof (lookup_lt_Some _ _ _ HL) as HLlt.
  pose proof (lookup_lt_Some _ _ _ HTh) as HThlt.
  destruct Th as [m r pl sc]. simpl in Hrun. subst r.
  destruct tr as [v| |[e|v]]; eexists _, _, _, _, _.
  all: (split; [ev|]).
  all: (split; [len|]).
  all: holds.
Qed.

Lemma get_task_fan_out_witness :
  exists w' t1 t2 T1 T2,
    fan_out 3 0 tcs0 To_cancelled world_pending
      = Some (Returned ((Aw_future 0, Aw_future 0), (t1, t2)), w') /\
    t1 <> t2 /\
    futures w' !! t1 = Some T1 /\
    futures w' !! t2 = Some T2 /\
    cell_outcome T1 = Some (Raised CancelledError) /\
    cell_outcome T2 = Some (Raised CancelledError) /\
    f_state T1 = f_state T2.
Proof.
  exact (get_task_fan_out world_pending tcs0 To_cancelled 0 3 _ []
           eq_refl eq_refl eq_refl eq_refl (le_n 3)).
Defined.

(** ** The blocking bridges *)

(** C5. On a thread that runs a loop, for instance inside a coroutine that
    the loop drives, [get_result] and [run_synchronously] return at once by
    raising [RuntimeError] to their caller, whatever the fuel: no loop is
    made, no loop is run, no future and no thread state changes.  All that
    is left behind is the [runner] coroutine, which was made and never
    started. *)
Theorem blocking_bridges_reject_running_loop
    (w : World) (me : thread_id) (Th : Thread) (l : loop_id)
    (value : awaitable) (fuel : nat) :
  threads w !! me = Some Th ->
  running_loop Th = Some l ->
  get_result fuel me value w
    = Some (Raised run_in_running_loop,
            with_coros (coros w ++ [CORO_CREATED (runner value)]) w) /\
  run_synchronously fuel me value w
    = Some (Raised run_in_running_loop,
            with_coros (coros w ++ [CORO_CREATED (runner value)]) w).
Proof.
  intros HTh Hrun. destruct Th as [m r pl sc]. simpl in Hrun. subst r.
  split; ev.
Qed.

Lemma blocking_bridges_reject_witness :
  get_result 0 0 (Aw_future 0) world_pending
    = Some (Raised run_in_running_loop,
            with_coros (coros world_pending ++ [CORO_CREATED (runner (Aw_future 0))])
                       world_pending).
Proof.
  exact (proj1 (blocking_bridges_reject_running_loop
                  world_pending 0 _ 0 (Aw_future 0) 0 eq_refl eq_refl)).
Defined.

(** C3. On a thread that runs no loop, [get_result(from_result(x))] returns
    [x], for every [x], [None] included: [asyncio.run] makes a loop, the
    [runner] task awaits the coroutine of [from_result] and ends with [x] on
    the loop's first turn, the second turn stops the loop, and the loop is
    closed. *)
Theorem get_result_from_result
    (w : World) (me : thread_id) (Th : Thread) (x : pyobj) (fuel : nat) :
  threads w !! me = Some Th ->
  running_loop Th = None ->
  loops_exist w ->
  8 <= fuel ->
  exists w',
    (let* a := from_result x in get_result fuel me a) w = Some (Returned x, w').
Proof.
  intros HTh Hrun Hok Hfuel.
  pose proof (lookup_lt_Some _ _ _ HTh) as HThlt.
  destruct Th as [m r pl sc]. simpl in Hrun. subst r.
  unfold loops_exist in Hok.
  eexists. ev.
Qed.

Lemma get_result_from_result_witness :
  running_loop (mkThread true None None false) = None /\
  loops_exist world_bare /\
  exists w',
    (let* a := from_result PyNone in get_result 8 0 a) world_bare
      = Some (Returned PyNone, w').
Proof.
  split; [reflexivity|]. split; [apply Forall_nil_2|].
  apply (get_result_from_result world_bare 0 _ PyNone 8 eq_refl eq_refl);
    [apply Forall_nil_2 | lia].
Defined.

(** ** Construction *)

(** C8, as amended.  On a thread that runs no loop and has no loop set,
    [TaskCompletionSource()] does what [asyncio.get_event_loop] does.  Where
    the host's policy makes no loop (any thread but the main one, the main
    thread once [set_event_loop] was called, every thread from CPython 3.14
    on), the construction raises the host's [RuntimeError] and leaves the
    world as it is.  Where the policy makes one (the main thread of an
    earlier CPython on which no loop was ever set), the construction
    succeeds: the source is bound to a loop made on the spot, with a pending
    future of that loop. *)
Theorem construction_without_loop (w : World) (me : thread_id) (Th : Thread) :
  threads w !! me = Some Th ->
  running_loop Th = None ->
  policy_loop Th = None ->
  if policy_creates_loop w && negb (set_called Th) && is_main Th
  then
    TaskCompletionSource_init me w
    = Some (Returned (mkTCS (length (futures w)) (length (loops w))),
            with_futures (futures w ++ [pending_future (length (loops w)) []])
              (with_threads
                 (<[me := mkThread true None (Some (length (loops w))) true]>
                    (threads w))
                 (with_loops (loops w ++ [fresh_loop]) w)))
  else
    TaskCompletionSource_init me w = Some (Raised no_current_loop, w).
Proof.
  intros HTh Hrun Hpol.
  pose proof (lookup_lt_Some _ _ _ HTh) as HThlt.
  destruct Th as [m r pl sc]. simpl in Hrun, Hpol. subst r pl.
  destruct w as [fs cs ls ts creates]. simpl in *.
  destruct creates, sc, m; simpl; ev.
Qed.

Lemma construction_without_loop_witness :
  TaskCompletionSource_init 0 world_bare = Some (Raised no_current_loop, world_bare).
Proof.
  exact (construction_without_loop world_bare 0 _ eq_refl eq_refl eq_refl).
Defined.

(** C8 as stated fails on a host whose policy creates loops: in
    [world_legacy] no loop exists, none runs and none is set, and the
    construction on the main thread succeeds with a loop made on the spot. *)
Lemma construction_succeeds_with_implicit_loop :
  loops world_legacy = [] /\
  exists w',
    TaskCompletionSource_init 0 world_legacy = Some (Returned (mkTCS 0 0), w') /\
    loops w' = [fresh_loop] /\
    ~ raises (TaskCompletionSource_init 0) world_legacy.
Proof.
  split; [reflexivity|]. eexists. split; [vm_compute; reflexivity|].
  split; [reflexivity|].
  intros (e & w' & H). vm_compute in H. discriminate H.
Qed.

(** ** Rules of the program logic *)

Lemma wp_elim {A} (m : M A) (Q : outcome A -> World -> Prop) (w w' : World)
    (o : outcome A) :
  wp m Q w -> m w = Some (o, w') -> Q o w'.
Proof. unfold wp. intros H E. rewrite E in H. exact H. Qed.

Lemma wp_mono {A} (m : M A) (Q Q' : outcome A -> World -> Prop) (w : World) :
  wp m Q w -> (forall o w', Q o w' -> Q' o w') -> wp m Q' w.
Proof. unfold wp. destruct (m w) as [[o w']|]; auto. Qed.

Lemma wp_ret {A} (a : A) (Q : outcome A -> World -> Prop) (w : World) :
  Q (Returned a) w -> wp (ret a) Q w.
Proof. exact (fun H => H). Qed.

Lemma wp_raise {A} (e : BaseException) (Q : outcome A -> World -> Prop) (w : World) :
  Q (Raised e) w -> wp (raise e) Q w.
Proof. exact (fun H => H). Qed.

Lemma wp_stuck {A} (Q : outcome A -> World -> Prop) (w : World) : wp stuck Q w.
Proof. exact I. Qed.

Lemma wp_bind {A B} (m : M A) (k : A -> M B) (Q : outcome B -> World -> Prop)
    (w : World) :
  wp m (fun o w' => match o with
                    | Returned a => wp (k a) Q w'
                    | Raised e => Q (Raised e) w'
                    end) w ->
  wp (bind m k) Q w.
Proof. unfold wp, bind. destruct (m w) as [[[a|e] w']|]; auto. Qed.

Lemma wp_try {A} (m : M A) (Q : outcome (outcome A) -> World -> Prop) (w : World) :
  wp m (fun o w' => Q (Returned o) w') w -> wp (try m) Q w.
Proof. unfold wp, try. destruct (m w) as [[o w']|]; auto. Qed.

Lemma wp_get_future (f : fut_id) (Q : outcome Future -> World -> Prop) (w : World) :
  (forall F, futures w !! f = Some F -> Q (Returned F) w) -> wp (get_future f) Q w.
Proof. unfold wp, get_future. destruct (futures w !! f); auto. Qed.

Lemma wp_get_coro (c : coro_id) (Q : outcome coroutine -> World -> Prop) (w : World) :
  (forall C, coros w !! c = Some C -> Q (Returned C) w) -> wp (get_coro c) Q w.
Proof. unfold wp, get_coro. destruct (coros w !! c); auto. Qed.

Lemma wp_get_loop (l : loop_id) (Q : outcome Loop -> World -> Prop) (w : World) :
  (forall L, loops w !! l = Some L -> Q (Returned L) w) -> wp (get_loop l) Q w.
Proof. unfold wp, get_loop. destruct (loops w !! l); auto. Qed.

Lemma wp_get_thread (t : thread_id) (Q : outcome Thread -> World -> Prop) (w : World) :
  (forall T, threads w !! t = Some T -> Q (Returned T) w) -> wp (get_thread t) Q w.
Proof. unfold wp, get_thread. destruct (threads w !! t); auto. Qed.

(** One rule at a time, from the goal backwards. *)
Ltac wp_step :=
  lazymatch goal with
  | |- wp (bind _ _) _ _ => apply wp_bind
  | |- wp (try _) _ _ => apply wp_try
  | |- wp (ret _) _ _ => apply wp_ret
  | |- wp (raise _) _ _ => apply wp_raise
  | |- wp stuck _ _ => apply wp_stuck
  | |- wp (get_future _) _ _ => apply wp_get_future
  | |- wp (get_coro _) _ _ => apply wp_get_coro
  | |- wp (get_loop _) _ _ => apply wp_get_loop
  | |- wp (get_thread _) _ _ => apply wp_get_thread
  | |- wp (put_future _ _) _ _ => apply wp_ret
  | |- wp (put_coro _ _) _ _ => apply wp_ret
  | |- wp (put_loop _ _) _ _ => apply wp_ret
  | |- wp (put_thread _ _) _ _ => apply wp_ret
  | |- wp (new_future _) _ _ => apply wp_ret
  | |- wp (new_coro _) _ _ => apply wp_ret
  | |- wp (new_loop _) _ _ => apply wp_ret
  | |- wp host_policy_creates_loop _ _ => apply wp_ret
  end; cbv beta iota.

Ltac wp_steps := repeat wp_step.

(** ** What a task's coroutine leaves alone *)

Section Frame.

Variables (t : fut_id) (T0 : Future) (l : loop_id) (L0 : Loop).
Variables (me : thread_id) (Th : Thread).
Hypothesis HT0 : f_state T0 = PENDING.
Hypothesis HTh : running_loop Th = Some l.

Local Abbreviation frame := (task_frame t T0 l L0 me Th).

Lemma frame_result (w : World) (f : fut_id) (F : Future) :
  frame w -> futures w !! f = Some F -> is_pending F = false ->
  wp (Future_result f) (fun _ w' => frame w') w.
Proof using HT0.
  intros (Ht & Hth & Hl) HF Hdone.
  assert (f <> t) as Hne.
  { intros ->. rewrite Ht in HF. injection HF as <-.
    unfold is_pending in Hdone. rewrite HT0 in Hdone. discriminate. }
  assert (forall F', frame (with_futures (<[f := F']> (futures w)) w)) as Hput.
  { intros F'. split; [|split; assumption]. cbn.
    rewrite list_lookup_insert_ne by exact Hne. exact Ht. }
  unfold Future_result. wp_steps. intros F0 _.
  destruct (f_state F0); wp_steps; try (split; [|split]; assumption).
  destruct (f_exception F0); wp_steps; apply Hput.
Qed.

Lemma frame_ensure_future (w : World) (a : awaitable) :
  frame w -> wp (ensure_future me a) (fun _ w' => frame w') w.
Proof using HTh.
  intros (Ht & Hth & rd & Hl). destruct a as [f|c]; cbn [ensure_future].
  { wp_steps. split; [|split]; eauto. }
  assert (t < length (futures w)) by (eapply lookup_lt_Some; eassumption).
  assert (l < length (loops w)) by (eapply lookup_lt_Some; eassumption).
  unfold get_event_loop, loop_create_task, call_soon, check_closed.
  wp_steps. intros Th' HTh'.
  rewrite Hth in HTh'. injection HTh' as <-. rewrite HTh. wp_steps.
  intros L HL. cbn in HL. rewrite Hl in HL. injection HL as <-.
  destruct (l_closed (with_ready rd L0)); wp_steps.
  - split; [|split]; cbn; eauto. rewrite lookup_app_l by assumption. exact Ht.
  - intros L HL. cbn in HL. rewrite Hl in HL. injection HL as <-. wp_steps.
    split; [|split]; cbn; eauto.
    + rewrite lookup_app_l by assumption. exact Ht.
    + eexists. rewrite list_lookup_insert_eq by assumption. reflexivity.
Qed.

Lemma frame_exec_send (n : nat) :
  (forall c b w, frame w -> wp (exec n me c b) (fun _ w' => frame w') w) /\
  (forall c exc w, frame w -> wp (send n me c exc) (fun _ w' => frame w') w).
Proof using HT0 HTh.
  induction n as [|n [IHe IHs]]; [split; intros; exact I|].
  split.
  - intros c b w Hw. destruct b as [v|e|[f|c'] k|a k]; cbn [exec].
    + wp_steps. exact Hw.
    + wp_steps. exact Hw.
    + wp_steps. intros F HF. destruct (is_pending F) eqn:HP; wp_steps; [exact Hw|].
      eapply wp_mono; [eapply frame_result; eassumption|].
      cbv beta. intros o w' Hw'. apply IHe. exact Hw'.
    + wp_steps. intros C _.
      assert (wp (let* o := try (send n me c' None) in
                  match o with
                  | Returned (Yields f) =>
                      put_coro c (CORO_SUSPENDED (Aw_coro c') k);; ret (Yields f)
                  | Returned (StopIteration v) => exec n me c (k (Returned v))
                  | Raised e => exec n me c (k (Raised e))
                  end) (fun _ w' => frame w') w) as Hgo.
      { wp_steps. eapply wp_mono; [apply IHs; exact Hw|].
        cbv beta. intros [[f|v]|e] w' Hw'; wp_steps; auto. }
      destruct C; auto.
    + wp_steps. eapply wp_mono; [apply frame_ensure_future; exact Hw|].
      cbv beta. intros [f|e] w' Hw'; wp_steps; auto.
  - intros c exc w Hw. cbn [send]. wp_steps. intros C _.
    destruct C as [b| |[f|c'] k|].
    + destruct exc; wp_steps; auto.
    + wp_steps. exact Hw.
    + wp_steps. destruct exc; [auto|].
      wp_steps. intros F HF. destruct (is_pending F) eqn:HP; [auto|]. wp_steps.
      eapply wp_mono; [eapply frame_result; eassumption|].
      cbv beta. intros o w' Hw'. apply IHe. exact Hw'.
    + wp_steps. eapply wp_mono; [apply IHs; exact Hw|].
      cbv beta. intros [[f|v]|e] w' Hw'; wp_steps; auto.
    + wp_steps. exact Hw.
Qed.

(** [future.result()] leaves the frame alone on any future, done or not. *)
Lemma frame_result_any (w : World) (f : fut_id) :
  frame w -> wp (Future_result f) (fun _ w' => frame w') w.
Proof using HT0.
  intros Hw. destruct (futures w !! f) as [F|] eqn:HF.
  - destruct (is_pending F) eqn:HP.
    + unfold Future_result. wp_steps. intros F' HF'.
      rewrite HF in HF'. injection HF' as <-.
      unfold is_pending in HP. destruct (f_state F); try discriminate HP.
      wp_steps. exact Hw.
    + eapply frame_result; eassumption.
  - unfold wp, Future_result, bind, get_future. rewrite HF. exact I.
Qed.

(** So does what a handle of the task sends into its coroutine. *)
Lemma frame_drive (n : nat) (c : coro_id) (h : handle) (w : World) :
  frame w -> wp (drive n me c h) (fun _ w' => frame w') w.
Proof using HT0 HTh.
  intros Hw. destruct h as [a|t' exc|[t'|] f|]; cbn [drive]; try exact I.
  - apply (proj2 (frame_exec_send n)). exact Hw.
  - wp_steps. eapply wp_mono; [apply frame_result_any; exact Hw|].
    cbv beta. intros [v|e] w' Hw'; apply (proj2 (frame_exec_send n)); exact Hw'.
Qed.

(** A handle of the task [t] is a step of [t]: a wake-up asks its future
    for the result, which leaves the frame alone, and steps with what that
    raised. *)
Lemma task_handle_is_step (n : nat) (c : coro_id) (h : handle)
    (w wx : World) (o : outcome sent) :
  handle_of_task t h = true ->
  frame w ->
  drive n me c h w = Some (o, wx) ->
  exists exc w',
    frame w' /\
    send n me c exc w' = Some (o, wx) /\
    Handle_run n me l h w = Handle_run n me l (H_task_step t exc) w'.
Proof using HT0.
  intros Hh Hw Hd. destruct h as [a|t' exc|[t'|] f|]; try discriminate Hh;
    cbn [handle_of_task] in Hh; apply Nat.eqb_eq in Hh; subst t'.
  - exists exc, w. auto.
  - cbn [drive] in Hd. unfold bind, try in Hd.
    pose proof (frame_result_any w f Hw) as Hres. unfold wp in Hres.
    destruct (Future_result f w) as [[r w']|] eqn:HR; [|discriminate Hd].
    exists (match r with Raised e => Some e | Returned _ => None end), w'.
    split; [exact Hres|]. split.
    + destruct r; exact Hd.
    + unfold Handle_run, bind, try. cbn [run_callback].
      unfold Task_wakeup_cb, bind, try. rewrite HR. destruct r; reflexivity.
Qed.

End Frame.

(** ** Fire and forget *)



(** The same from end to end on [world_failing]: the caller gets [None],
    the loop's turn runs the task and reports nothing, the loop is not
    stopping, and the collected task reports the error. *)
Lemma start_failure_end_to_end :
  exists w1 w2 w3,
    start 0 (Aw_coro 0) world_failing = Some (Returned tt, w1) /\
    run_once 5 0 0 w1 = Some (Returned Ran, w2) /\
    loops w2 = [fresh_loop] /\
    cell_outcome <$> futures w2 !! 0 = Some (Some (Raised (Exc boom))) /\
    Future_del 0 w2 = Some (Returned tt, w3) /\
    l_reported <$> loops w3 !! 0
      = Some [mkReport "Task exception was never retrieved" (Some (Exc boom))].
Proof.
  eexists _, _, _. split; [vm_compute; reflexivity|].
  split; [vm_compute; reflexivity|]. split; [reflexivity|].
  split; [reflexivity|]. split; [vm_compute; reflexivity|]. reflexivity.
Qed.

(** [world_woken] is what the code makes of [world_pending]: [start] of the
    source's task, a turn in which the [runner] suspends on the pending
    future, [SetException(boom)], and the turn that runs its closure. *)
Lemma world_woken_reached :
  (start 0 (Aw_future 0) ;;
   run_once 3 0 0 ;;
   SetException tcs0 (Plain boom) ;;
   run_once 3 0 0) world_pending
  = Some (Returned Ran, world_woken).
Proof. vm_compute. reflexivity. Qed.

(** A failure after a suspension, from end to end: the turn after
    [world_woken] resumes the [runner], which fails with [boom]; the loop
    goes on, not stopping and with nothing reported, and the collected task
    reports the error. *)
Lemma start_failure_after_suspension :
  exists w2 w3,
    run_once 3 0 0 world_woken = Some (Returned Ran, w2) /\
    loops w2 = [fresh_loop] /\
    cell_outcome <$> futures w2 !! 1 = Some (Some (Raised (Exc boom))) /\
    Future_del 1 w2 = Some (Returned tt, w3) /\
    l_reported <$> loops w3 !! 0
      = Some [mkReport "Task exception was never retrieved" (Some (Exc boom))].
Proof.
  eexists _, _. split; [vm_compute; reflexivity|].
  split; [reflexivity|]. split; [reflexivity|].
  split; [vm_compute; reflexivity|]. reflexivity.
Qed.

(** ** Coroutine objects are fresh and single-use *)

(** Brute force for operations that do not touch the coroutines. *)
Ltac wp_all :=
  repeat first
    [ wp_step
    | match goal with
      | |- forall _, _ -> _ => intros ? _
      | |- wp (match ?x with _ => _ end) _ _ => destruct x
      end
    | reflexivity ].

Lemma Future_result_coros (f : fut_id) (w : World) :
  wp (Future_result f) (fun _ w' => coros w' = coros w) w.
Proof. unfold Future_result. wp_all. Qed.

Lemma ensure_future_coros (me : thread_id) (a : awaitable) (w : World) :
  wp (ensure_future me a) (fun _ w' => coros w' = coros w) w.
Proof.
  destruct a as [f|c]; cbn [ensure_future]; [wp_all|].
  unfold get_event_loop, policy_get_event_loop,
    new_event_loop, set_event_loop, loop_create_task, call_soon, check_closed.
  wp_all.
Qed.

Lemma running_kept_same (w w' : World) : coros w' = coros w -> running_kept w w'.
Proof. intros E c H. rewrite E. exact H. Qed.

Lemma exec_post_kept (c : coro_id) (w w1 w' : World) (o : outcome sent) :
  running_kept w w1 -> exec_post c w1 o w' -> exec_post c w o w'.
Proof. intros K [P1 P2]. split; [|exact P2]. intros c0 Hne H. auto. Qed.

Lemma put_running (c : coro_id) (C : coroutine) (w : World) :
  (forall c0, c0 <> c -> coros w !! c0 = Some CORO_RUNNING ->
     coros (with_coros (<[c := C]> (coros w)) w) !! c0 = Some CORO_RUNNING).
Proof. intros c0 Hne H. cbn. rewrite list_lookup_insert_ne by congruence. exact H. Qed.

Lemma exec_send_close (me : thread_id) (n : nat) :
  (forall c b w, coros w !! c = Some CORO_RUNNING ->
     wp (exec n me c b) (exec_post c w) w) /\
  (forall c exc w, wp (send n me c exc) (send_post c w) w).
Proof.
  induction n as [|n [IHe IHs]]; [split; intros; exact I|].
  assert (forall c w w1 b, coros w !! c = Some CORO_RUNNING -> running_kept w w1 ->
            wp (exec n me c b) (exec_post c w) w1) as Hnext.
  { intros c w w1 b Hc K. eapply wp_mono; [apply IHe; apply K; exact Hc|].
    intros o w'. apply exec_post_kept. exact K. }
  assert (forall c c' w w1 exc k, coros w !! c = Some CORO_RUNNING ->
            running_kept w w1 ->
            wp (let* o := try (send n me c' exc) in
                match o with
                | Returned (Yields f) =>
                    put_coro c (CORO_SUSPENDED (Aw_coro c') k);; ret (Yields f)
                | Returned (StopIteration v) => exec n me c (k (Returned v))
                | Raised e => exec n me c (k (Raised e))
                end) (exec_post c w) w1) as Hdeleg.
  { intros c c' w w1 exc k Hc K. wp_steps.
    eapply wp_mono; [apply IHs|]. cbv beta.
    intros o w2 [K2 _].
    assert (running_kept w w2) as K' by (intros c0 H0; auto).
    destruct o as [[f|v]|e]; wp_steps; try (apply Hnext; assumption).
    split; [|intros []]. intros c0 Hne H0. apply put_running; auto. }
  split.
  - intros c b w Hc.
    pose proof (lookup_lt_Some _ _ _ Hc) as Hlt.
    assert (forall o, exec_post c w o (with_coros (<[c := CORO_CLOSED]> (coros w)) w))
      as Hclose.
    { intros o. split; [apply put_running|]. intros _. cbn.
      apply list_lookup_insert_eq. exact Hlt. }
    destruct b as [v|e|[f|c'] k|a k]; cbn [exec].
    + wp_steps. apply Hclose.
    + wp_steps. apply Hclose.
    + wp_steps. intros F _. destruct (is_pending F); wp_steps.
      * split; [apply put_running|intros []].
      * eapply wp_mono; [apply Future_result_coros|]. cbv beta.
        intros o w1 E. apply Hnext; [exact Hc|]. apply running_kept_same, E.
    + wp_steps. intros C' _.
      pose proof (Hdeleg c c' w w None k Hc (fun _ H => H)) as Hgo.
      destruct C'; try exact Hgo.
      apply Hnext; [exact Hc|]. exact (fun _ H => H).
    + wp_steps. eapply wp_mono; [apply ensure_future_coros|]. cbv beta.
      intros o w1 E. destruct o as [f|e]; wp_steps.
      * apply Hnext; [exact Hc|]. apply running_kept_same, E.
      * split.
        -- intros c0 Hne H0. cbn. rewrite list_lookup_insert_ne by congruence.
           rewrite E. exact H0.
        -- intros _. cbn. apply list_lookup_insert_eq. rewrite E. exact Hlt.
  - intros c exc w. cbn [send]. wp_steps. intros C HC.
    pose proof (lookup_lt_Some _ _ _ HC) as Hlt.
    assert (forall X, X <> CORO_RUNNING -> C <> CORO_RUNNING ->
              running_kept w (with_coros (<[c := X]> (coros w)) w)) as Hput.
    { intros X _ HX c0 H0. cbn. rewrite list_lookup_insert_ne; [exact H0|].
      intros ->. rewrite HC in H0. congruence. }
    assert (C <> CORO_RUNNING ->
            forall b w1, running_kept (with_coros (<[c := CORO_RUNNING]> (coros w)) w) w1 ->
              wp (exec n me c b) (send_post c w) w1) as Hrun.
    { intros HX b w1 K.
      assert (coros (with_coros (<[c := CORO_RUNNING]> (coros w)) w) !! c
              = Some CORO_RUNNING) as Hc1
        by (cbn; apply list_lookup_insert_eq; exact Hlt).
      eapply wp_mono; [apply IHe, K, Hc1|]. cbv beta.
      intros o w' [P1 P2]. split.
      - intros c0 H0. assert (c0 <> c) as Hne
          by (intros ->; rewrite HC in H0; congruence).
        apply P1; [exact Hne|]. apply K. cbn.
        rewrite list_lookup_insert_ne by congruence. exact H0.
      - intros _ _ _ Hf. exact (P2 Hf). }
    destruct C as [b| |[f|c'] k|].
    + destruct exc as [e|]; wp_steps.
      * split; [apply Hput; congruence|]. intros _ _ _ _. cbn.
        apply list_lookup_insert_eq, Hlt.
      * apply Hrun; [congruence|]. exact (fun _ H => H).
    + wp_steps. split; [exact (fun _ H => H)|]. intros C' HC' D.
      rewrite HC in HC'. injection HC' as <-. destruct D.
    + wp_steps. destruct exc as [e|].
      * apply Hrun; [congruence|]. exact (fun _ H => H).
      * wp_steps. intros F _. destruct (is_pending F).
        -- apply Hrun; [congruence|]. exact (fun _ H => H).
        -- wp_steps. eapply wp_mono; [apply Future_result_coros|]. cbv beta.
           intros o w1 E. apply Hrun; [congruence|]. apply running_kept_same, E.
    + wp_steps. eapply wp_mono; [apply IHs|]. cbv beta.
      intros o w2 [K2 _].
      destruct o as [[f|v]|e]; wp_steps;
        try (apply Hrun; [congruence|exact K2]).
      split; [|intros _ _ _ []].
      intros c0 H0. assert (c0 <> c) as Hne
        by (intros ->; rewrite HC in H0; congruence).
      cbn. rewrite list_lookup_insert_ne by congruence. apply K2. cbn.
      rewrite list_lookup_insert_ne by congruence. exact H0.
    + wp_steps. split; [exact (fun _ H => H)|]. intros C' HC' D.
      rewrite HC in HC'. injection HC' as <-. destruct D.
Qed.

(** A coroutine object whose drive has come to its end is closed, and what
    awaits it again gets a [RuntimeError]. *)
Lemma finished_coroutine_is_closed (me : thread_id) (fuel : nat) (c : coro_id)
    (exc : option BaseException) (w w' : World) (C : coroutine)
    (o : outcome sent) :
  coros w !! c = Some C -> drivable C ->
  send fuel me c exc w = Some (o, w') -> finished o ->
  coros w' !! c = Some CORO_CLOSED.
Proof.
  intros HC HD Hsend Hfin.
  destruct (wp_elim _ _ _ _ _ (proj2 (exec_send_close me fuel) c exc w) Hsend)
    as [_ Hclose].
  exact (Hclose C HC HD Hfin).
Qed.

Lemma closed_coroutine_raises (me : thread_id) (n : nat) (c : coro_id) (w : World) :
  coros w !! c = Some CORO_CLOSED ->
  send (S n) me c None w = Some (Raised reused, w).
Proof.
  intros HC. cbn [send]. unfold bind, get_coro. rewrite HC. reflexivity.
Qed.

Lemma await_closed_coroutine (me : thread_id) (n : nat) (c c0 : coro_id)
    (k : outcome pyobj -> code) (w : World) :
  coros w !! c = Some CORO_CLOSED ->
  exec (S (S n)) me c0 (Await (Aw_coro c) k) w
  = exec (S n) me c0 (k (Raised reused)) w.
Proof.
  intros HC. cbn [exec]. unfold bind at 1. unfold get_coro at 1. rewrite HC.
  unfold bind at 1. unfold try at 1.
  rewrite (closed_coroutine_raises me n c w HC). reflexivity.
Qed.

(** C10. Each call of [zero()], [from_result(v)] and [get_awaiter(a)] makes
    a coroutine object that did not exist before, so two calls in a row give
    two different objects.  Such an object is single-use: once a drive of it
    has come to its end, with a value or with an exception, at its first
    step or at a later one, the object is closed, and awaiting it again
    raises [RuntimeError] at the [await] and gives no value. *)
Theorem coroutine_calls_are_fresh_and_single_use
    (w : World) (cc : coroutine_call) :
  coros w !! length (coros w) = None /\
  call_coroutine cc w
    = Some (Returned (Aw_coro (length (coros w))),
            with_coros (coros w ++ [CORO_CREATED (body_of cc)]) w) /\
  (forall (cc' : coroutine_call) (a1 a2 : awaitable) (w' : World),
      (let* a1 := call_coroutine cc in
       let* a2 := call_coroutine cc' in
       ret (a1, a2)) w = Some (Returned (a1, a2), w') ->
      a1 <> a2) /\
  (forall (me : thread_id) (fuel : nat) (exc : option BaseException)
          (w1 w2 : World) (C : coroutine) (o : outcome sent),
      coros w1 !! length (coros w) = Some C ->
      drivable C ->
      send fuel me (length (coros w)) exc w1 = Some (o, w2) ->
      finished o ->
      coros w2 !! length (coros w) = Some CORO_CLOSED /\
      (forall n, send (S n) me (length (coros w)) None w2
                 = Some (Raised reused, w2)) /\
      (forall n c0 k,
          exec (S (S n)) me c0 (Await (Aw_coro (length (coros w))) k) w2
          = exec (S n) me c0 (k (Raised reused)) w2)).
Proof.
  assert (forall cc0 w0,
            call_coroutine cc0 w0
            = Some (Returned (Aw_coro (length (coros w0))),
                    with_coros (coros w0 ++ [CORO_CREATED (body_of cc0)]) w0))
    as Hcall by (intros [| |]; reflexivity).
  split; [apply lookup_ge_None; lia|].
  split; [apply Hcall|].
  split.
  - intros cc' a1 a2 w' H. unfold bind in H. rewrite Hcall in H.
    rewrite Hcall in H. injection H as <- <- _. cbn. rewrite length_app. cbn.
    intros E. injection E as E. lia.
  - intros me fuel exc w1 w2 C o HC HD Hsend Hfin.
    pose proof (finished_coroutine_is_closed _ _ _ _ _ _ _ _ HC HD Hsend Hfin)
      as Hclosed.
    split; [exact Hclosed|]. split.
    + intros n. apply closed_coroutine_raises, Hclosed.
    + intros n c0 k. apply await_closed_coroutine, Hclosed.
Qed.

Lemma coroutine_single_use_witness :
  exists w1 w2,
    from_result (PyInt 5) world_running = Some (Returned (Aw_coro 0), w1) /\
    send 2 0 0 None w1 = Some (Returned (StopIteration (PyInt 5)), w2) /\
    coros w2 !! 0 = Some CORO_CLOSED /\
    send 1 0 0 None w2 = Some (Raised reused, w2).
Proof.
  destruct (coroutine_calls_are_fresh_and_single_use
              world_running (Call_from_result (PyInt 5))) as (_ & H1 & _ & H2).
  match type of H1 with _ = Some (_, ?W) => set (w1 := W) in * end.
  assert (exists w2, send 2 0 (length (coros world_running)) None w1
                     = Some (Returned (StopIteration (PyInt 5)), w2)) as [w2 Hs]
    by (eexists; vm_compute; reflexivity).
  destruct (H2 0 2 None w1 w2 _ _ eq_refl I Hs I) as (A & B & _).
  exists w1, w2. split; [exact H1|]. split; [exact Hs|].
  split; [exact A|]. exact (B 0).
Defined.

(** On a concrete run: a coroutine that awaits [from_result(5)] once returns
    5; one that awaits the same object twice gets the [RuntimeError] at the
    second [await]. *)
Lemma from_result_awaited_twice :
  exists w1 w2,
    (let* a := from_result (PyInt 5) in
     let* c := new_coro (CORO_CREATED (return_await a)) in
     send 6 0 c None) world_running
    = Some (Returned (StopIteration (PyInt 5)), w1) /\
    (let* a := from_result (PyInt 5) in
     let* c := new_coro (CORO_CREATED (await_twice a)) in
     send 6 0 c None) world_running
    = Some (Raised reused, w2).
Proof. eexists _, _. split; vm_compute; reflexivity. Qed.

(** * Further properties of [task.py] *)

(** ** The blocking bridges, further *)

(** X1. [get_result] and [run_synchronously] on a thread that runs no loop
    give a failure of the awaited coroutine to their caller: whatever a
    coroutine that has not started raises at once, an error or the
    cancellation signal, both bridges raise just that. *)
Theorem blocking_bridges_reraise
    (w : World) (me : thread_id) (Th : Thread) (c : coro_id)
    (e : BaseException) (fuel : nat) :
  threads w !! me = Some Th ->
  running_loop Th = None ->
  loops_exist w ->
  coros w !! c = Some (CORO_CREATED (Raise e)) ->
  10 <= fuel ->
  (exists w', get_result fuel me (Aw_coro c) w = Some (Raised e, w')) /\
  (exists w', run_synchronously fuel me (Aw_coro c) w = Some (Raised e, w')).
Proof.
  intros HTh Hrun Hok Hc Hfuel.
  pose proof (lookup_lt_Some _ _ _ HTh) as HThlt.
  pose proof (lookup_lt_Some _ _ _ Hc) as Hclt.
  destruct Th as [m r pl sc]. simpl in Hrun. subst r.
  unfold loops_exist in Hok.
  destruct e as [|e]; split; eexists; ev.
Qed.

Lemma blocking_bridges_reraise_witness :
  exists w', get_result 10 0 (Aw_coro 0) world_bare_failing
             = Some (Raised (Exc boom), w').
Proof.
  exact (proj1 (blocking_bridges_reraise world_bare_failing 0 _ 0 (Exc boom) 10
                  eq_refl eq_refl (Forall_nil_2 _) eq_refl (le_n 10))).
Defined.

(** Every future of a well-formed world has a loop below the next one. *)
Lemma future_loop_exists (w : World) (f : fut_id) (F : Future) :
  loops_exist w -> futures w !! f = Some F -> f_loop F < length (loops w).
Proof.
  intros Hok HF. unfold loops_exist in Hok.
  rewrite Forall_lookup in Hok. exact (Hok f F HF).
Qed.

(** X2. [get_result] on the task of a source whose future is still pending
    does not wait for it: [asyncio.run] drives a loop of its own, the future
    belongs to another, and the caller gets the host's [RuntimeError] for a
    future of a different loop.  The future is left as it was, with no
    callback added. *)
Theorem get_result_of_pending_task
    (w : World) (me : thread_id) (Th : Thread) (self : TaskCompletionSource)
    (F : Future) (fuel : nat) :
  threads w !! me = Some Th ->
  running_loop Th = None ->
  loops_exist w ->
  futures w !! future self = Some F ->
  f_state F = PENDING ->
  10 <= fuel ->
  exists w',
    (let* h := get_task me self in get_result fuel me h) w
      = Some (Raised different_loop, w') /\
    futures w' !! future self = Some F.
Proof.
  intros HTh Hrun Hok HF HP Hfuel.
  pose proof (lookup_lt_Some _ _ _ HTh) as HThlt.
  pose proof (lookup_lt_Some _ _ _ HF) as HFlt.
  pose proof (future_loop_exists _ _ _ Hok HF) as HFloop.
  destruct Th as [m r pl sc]. simpl in Hrun. subst r.
  destruct F as [lF sF rF eF cbF ltF coF]. simpl in HP, HFloop. subst sF.
  unfold loops_exist in Hok.
  eexists. split; [ev|]. holds.
Qed.

Lemma get_result_of_pending_task_witness :
  exists w',
    (let* h := get_task 0 tcs0 in get_result 10 0 h) world_idle_pending
      = Some (Raised different_loop, w') /\
    futures w' !! 0 = Some (pending_future 0 []).
Proof.
  apply (get_result_of_pending_task world_idle_pending 0 _ tcs0
           (pending_future 0 []) 10 eq_refl eq_refl);
    first [ reflexivity | lia | repeat constructor ].
Defined.

(** X3. [get_result] on the task of a source whose future is done needs no
    loop turn of the future's own loop: it gives the caller what the cell
    holds, the result, the bound exception or the cancellation signal. *)
Theorem get_result_of_done_task
    (w : World) (me : thread_id) (Th : Thread) (self : TaskCompletionSource)
    (F : Future) (o : outcome pyobj) (fuel : nat) :
  threads w !! me = Some Th ->
  running_loop Th = None ->
  loops_exist w ->
  futures w !! future self = Some F ->
  cell_outcome F = Some o ->
  10 <= fuel ->
  exists w',
    (let* h := get_task me self in get_result fuel me h) w = Some (o, w').
Proof.
  intros HTh Hrun Hok HF Ho Hfuel.
  pose proof (lookup_lt_Some _ _ _ HTh) as HThlt.
  pose proof (lookup_lt_Some _ _ _ HF) as HFlt.
  pose proof (future_loop_exists _ _ _ Hok HF) as HFloop.
  destruct Th as [m r pl sc]. simpl in Hrun. subst r.
  destruct F as [lF sF rF eF cbF ltF coF]. simpl in HFloop.
  unfold loops_exist in Hok. unfold cell_outcome in Ho. simpl in Ho.
  destruct sF; [discriminate Ho| |].
  - injection Ho as <-. eexists. ev.
  - assert (Forall (fun F => f_loop F < length (loops w))
              (<[future self := mkFuture lF FINISHED rF eF cbF false coF]>
                 (futures w))) as Hok'
      by (apply Forall_insert; assumption).
    destruct eF as [[|e]|]; injection Ho as <-; eexists; ev.
Qed.

Lemma get_result_of_done_task_witness :
  exists w',
    (let* h := get_task 0 tcs0 in get_result 10 0 h) world_idle_completed
      = Some (Returned (PyInt 1), w').
Proof.
  apply (get_result_of_done_task world_idle_completed 0 _ tcs0
           (mkFuture 0 FINISHED (PyInt 1) None [] false None) _ 10
           eq_refl eq_refl);
    first [ reflexivity | lia | repeat constructor ].
Defined.

(** X4. [get_result] leaves the calling thread without a current loop:
    [asyncio.run] closes the loop it made and resets the thread's loop.  A
    [TaskCompletionSource()] constructed on that thread right after a
    [get_result] that returned therefore raises the host's [RuntimeError],
    on every host, also on one whose policy would have made a loop before. *)
Theorem construction_after_get_result
    (w : World) (me : thread_id) (Th : Thread) (x : pyobj) (fuel : nat) :
  threads w !! me = Some Th ->
  running_loop Th = None ->
  loops_exist w ->
  8 <= fuel ->
  exists w',
    (let* a := from_result x in
     get_result fuel me a ;;
     TaskCompletionSource_init me) w
    = Some (Raised no_current_loop, w') /\
    threads w' !! me = Some (mkThread (is_main Th) None None true) /\
    l_closed <$> loops w' !! length (loops w) = Some true.
Proof.
  intros HTh Hrun Hok Hfuel.
  pose proof (lookup_lt_Some _ _ _ HTh) as HThlt.
  destruct Th as [m r pl sc]. simpl in Hrun. subst r.
  destruct w as [fs cs ls ts creates].
  unfold loops_exist in Hok. cbn [futures loops] in Hok.
  cbn [threads] in HTh, HThlt.
  destruct creates; (eexists; split; [ev|]; holds).
Qed.

Lemma construction_after_get_result_witness :
  exists w',
    (let* a := from_result PyNone in
     get_result 8 0 a ;;
     TaskCompletionSource_init 0) world_legacy
    = Some (Raised no_current_loop, w') /\
    threads w' !! 0 = Some (mkThread true None None true) /\
    l_closed <$> loops w' !! 0 = Some true.
Proof.
  exact (construction_after_get_result world_legacy 0 _ PyNone 8
           eq_refl eq_refl (Forall_nil_2 _) (le_n 8)).
Defined.



(** ** Fire and forget, further *)

(** X6. [start] on a thread that runs no loop raises the host's
    [RuntimeError] to its caller.  No task is made and nothing is queued;
    the [runner] coroutine was made before the failure and is left behind,
    never started. *)
Theorem start_without_running_loop
    (w : World) (me : thread_id) (Th : Thread) (task : awaitable) :
  threads w !! me = Some Th ->
  running_loop Th = None ->
  start me task w
  = Some (Raised no_running_loop,
          with_coros (coros w ++ [CORO_CREATED (runner task)]) w).
Proof.
  intros HTh Hrun. destruct Th as [m r pl sc]. simpl in Hrun. subst r. ev.
Qed.

Lemma start_without_running_loop_witness :
  start 0 (Aw_future 0) world_idle_pending
  = Some (Raised no_running_loop,
          with_coros (coros world_idle_pending
                      ++ [CORO_CREATED (runner (Aw_future 0))])
                     world_idle_pending).
Proof.
  exact (start_without_running_loop world_idle_pending 0 _ (Aw_future 0)
           eq_refl eq_refl).
Defined.

(** X7. [start(a)] on a thread that runs an open loop makes a pending task
    for the [runner] coroutine.  When the loop runs a handle of that task,
    its first step or a wake-up after [a] had it wait, in which [a] returns
    a value or raises the cancellation signal, the handle returns normally
    and the loop's exception handler is given nothing, then and when the
    task is collected: a value is stored in the task, a cancellation ends it
    cancelled, and neither is ever reported. *)
Theorem start_reports_no_value_and_no_cancellation
    (w : World) (me : thread_id) (Th : Thread) (l : loop_id) (L : Loop)
    (a : awaitable) :
  threads w !! me = Some Th ->
  running_loop Th = Some l ->
  loops w !! l = Some L ->
  l_closed L = false ->
  (exists w1,
      start me a w = Some (Returned tt, w1) /\
      futures w1 !! length (futures w)
        = Some (pending_task l (length (coros w))) /\
      coros w1 !! length (coros w) = Some (CORO_CREATED (runner a))) /\
  forall (fuel : nat) (h : handle) (o : outcome sent)
         (w2 wx : World) (Th2 : Thread) (L2 : Loop),
    handle_of_task (length (futures w)) h = true ->
    threads w2 !! me = Some Th2 ->
    running_loop Th2 = Some l ->
    futures w2 !! length (futures w) = Some (pending_task l (length (coros w))) ->
    loops w2 !! l = Some L2 ->
    drive fuel me (length (coros w)) h w2 = Some (o, wx) ->
    (exists v, o = Returned (StopIteration v)) \/ o = Raised CancelledError ->
    exists w3 T3,
      Handle_run fuel me l h w2 = Some (Returned tt, w3) /\
      l_reported <$> loops w3 !! l = Some (l_reported L2) /\
      futures w3 !! length (futures w) = Some T3 /\
      cell_outcome T3
        = Some (match o with
                | Returned (StopIteration v) => Returned v
                | _ => Raised CancelledError
                end) /\
      Future_del (length (futures w)) w3 = Some (Returned tt, w3).
Proof.
  intros HTh Hrun HL Hopen.
  pose proof (lookup_lt_Some _ _ _ HL) as HLlt.
  split.
  { destruct Th as [m r pl sc]. simpl in Hrun. subst r.
    destruct L as [rd cl st pipe pk rep]. simpl in Hopen. subst cl.
    eexists. split; [ev|]. holds. }
  clear dependent Th. clear dependent L.
  intros fuel h o w2 wx Th2 L2 Hh HTh2 Hrun2 HT2 HL2 Hdrive Ho.
  set (t := length (futures w)) in *. set (cr := length (coros w)) in *.
  clearbody t cr.
  assert (task_frame t (pending_task l cr) l L2 me Th2 w2) as Hw2.
  { split; [exact HT2|]. split; [exact HTh2|].
    exists (l_ready L2). rewrite HL2. destruct L2; reflexivity. }
  destruct (task_handle_is_step t (pending_task l cr) l L2 me Th2 eq_refl
              fuel cr h w2 wx _ Hh Hw2 Hdrive)
    as (exc & w2' & (HT2' & _ & rd' & HL2') & Hsend & ->).
  assert (task_frame t (pending_task l cr) l L2 me Th2 wx)
    as (HTx & _ & rd & HLx).
  { exact (wp_elim _ _ _ _ _
             (frame_drive t (pending_task l cr) l L2 me Th2 eq_refl Hrun2
                fuel cr h w2 Hw2) Hdrive). }
  clear Hdrive Hw2 HT2 HL2 Hh.
  pose proof (lookup_lt_Some _ _ _ HTx) as HTxlt.
  pose proof (lookup_lt_Some _ _ _ HLx) as HLxlt.
  destruct L2 as [rd2 cl st pipe pk rep].
  destruct Ho as [[v ->]| ->]; eexists _, _.
  all: split; [ev|].
  all: split; [holds|].
  all: split; [holds|].
  all: split; [holds|].
  all: ev.
Qed.

Lemma start_reports_no_value_witness :
  exists w1 w3 T3,
    start 0 (Aw_future 0) world_completed = Some (Returned tt, w1) /\
    Handle_run 3 0 0 (H_task_step 1 None) w1 = Some (Returned tt, w3) /\
    l_reported <$> loops w3 !! 0 = Some [] /\
    futures w3 !! 1 = Some T3 /\
    cell_outcome T3 = Some (Returned (PyInt 1)) /\
    Future_del 1 w3 = Some (Returned tt, w3).
Proof.
  destruct (start_reports_no_value_and_no_cancellation
              world_completed 0 _ 0 _ (Aw_future 0)
              eq_refl eq_refl eq_refl eq_refl) as [(w1 & H1 & H1t & H1c) H2].
  assert (exists wx, drive 3 0 (length (coros world_completed))
                       (H_task_step 1 None) w1
                     = Some (Returned (StopIteration (PyInt 1)), wx)) as [wx Hs].
  { vm_compute in H1. injection H1 as <-. eexists. vm_compute. reflexivity. }
  assert (exists Th2 L2, threads w1 !! 0 = Some Th2 /\
                         running_loop Th2 = Some 0 /\
                         loops w1 !! 0 = Some L2 /\ l_reported L2 = [])
    as (Th2 & L2 & A1 & A2 & A3 & A4).
  { vm_compute in H1. injection H1 as <-. eexists _, _.
    repeat split; reflexivity. }
  destruct (H2 3 (H_task_step 1 None) _ w1 wx Th2 L2 eq_refl A1 A2 H1t A3 Hs
              (or_introl (ex_intro _ (PyInt 1) eq_refl)))
    as (w3 & T3 & B1 & B2 & B3 & B4 & B5).
  exists w1, w3, T3. rewrite A4 in B2.
  repeat split; assumption.
Defined.

(** A value after a suspension, from end to end: the [runner] of [start]
    waits for the pending future of [world_pending]; after [SetResult(7)]
    and two turns of the loop its task holds 7, and nothing was reported or
    is reported when the task is collected. *)
Lemma start_value_after_suspension :
  exists w3,
    (start 0 (Aw_future 0) ;;
     run_once 3 0 0 ;;
     SetResult tcs0 (PyInt 7) ;;
     run_once 3 0 0 ;;
     run_once 3 0 0) world_pending = Some (Returned Ran, w3) /\
    cell_outcome <$> futures w3 !! 1 = Some (Some (Returned (PyInt 7))) /\
    l_reported <$> loops w3 !! 0 = Some [] /\
    Future_del 1 w3 = Some (Returned tt, w3).
Proof.
  eexists. split; [vm_compute; reflexivity|].
  split; [reflexivity|]. split; [reflexivity|]. vm_compute. reflexivity.
Qed.

(** ** The life of a completion source *)

(** X8. A source constructed on a thread that runs an open, idle loop is
    bound to that loop, whatever loop the thread's policy holds, and its
    future is pending.  A transition made on it and one turn of the loop
    settle the future as the transition says, and nothing is reported;
    except that a [SetException] with a [StopIteration] settles nothing:
    the host refuses it, the future stays pending, and the loop's exception
    handler is given the host's [TypeError]. *)
Theorem construct_transition_turn
    (w : World) (me : thread_id) (Th : Thread) (l : loop_id)
    (tr : transition) (reported : list report) (fuel : nat) :
  threads w !! me = Some Th ->
  running_loop Th = Some l ->
  loops w !! l = Some (mkLoop [] false false 0 false reported) ->
  exists w',
    (let* tcs := TaskCompletionSource_init me in
     call_transition tcs tr ;;
     run_once fuel me l ;;
     ret tcs) w
    = Some (Returned (mkTCS (length (futures w)) l), w') /\
    futures w' !! length (futures w) = Some (settle tr (pending_future l [])) /\
    l_reported <$> loops w' !! l = Some (reported ++ pending_reports tr).
Proof.
  intros HTh Hrun HL.
  pose proof (lookup_lt_Some _ _ _ HTh) as HThlt.
  pose proof (lookup_lt_Some _ _ _ HL) as HLlt.
  destruct Th as [m r pl sc]. simpl in Hrun. subst r.
  destruct tr as [v| |[e|v]]; eexists; (split; [ev|]);
    unfold pending_reports; holds; rewrite app_nil_r; reflexivity.
Qed.

Lemma construct_transition_turn_witness :
  exists w',
    (let* tcs := TaskCompletionSource_init 0 in
     call_transition tcs To_cancelled ;;
     run_once 1 0 0 ;;
     ret tcs) world_running
    = Some (Returned (mkTCS 0 0), w') /\
    futures w' !! 0 = Some (settle To_cancelled (pending_future 0 [])) /\
    l_reported <$> loops w' !! 0 = Some [].
Proof.
  exact (construct_transition_turn world_running 0 _ 0 To_cancelled [] 1
           eq_refl eq_refl eq_refl).
Defined.

(** X9. Of two transitions made on a pending source before the loop turns,
    the first one wins, if it is one the future takes (any but a
    [SetException] with a [StopIteration]), whatever the second is: the
    loop runs the closures in the order of the calls, the cell takes the
    value of the first, and the second leaves its state, result and
    exception as they are and is reported or not as in C1.  The cell in
    the end is the one the first transition made, but for one field: a
    second [SetCancelled] clears the mark of an exception not yet
    retrieved. *)
Theorem first_transition_wins
    (w : World) (self : TaskCompletionSource) (tr1 tr2 : transition)
    (o : outcome pyobj)
    (me : thread_id) (fuel : nat) (parked : bool) (reported : list report) :
  futures w !! future self = Some (pending_future (loop self) []) ->
  loops w !! loop self = Some (mkLoop [] false false 0 parked reported) ->
  transition_outcome tr1 = Some o ->
  exists w' F',
    (call_transition self tr1 ;;
     call_transition self tr2 ;;
     run_once fuel me (loop self)) w = Some (Returned Ran, w') /\
    futures w' !! future self = Some F' /\
    F' = after_refused tr2 (settle tr1 (pending_future (loop self) [])) /\
    same_terminal (settle tr1 (pending_future (loop self) [])) F' /\
    cell_outcome F' = Some o /\
    l_reported <$> loops w' !! loop self = Some (reported ++ reports_of tr2).
Proof.
  intros HF HL Htr.
  pose proof (lookup_lt_Some _ _ _ HF) as HFlt.
  pose proof (lookup_lt_Some _ _ _ HL) as HLlt.
  destruct parked; destruct tr1 as [v1| |[e1|v1]]; try discriminate Htr;
    injection Htr as <-; destruct tr2 as [v2| |e2];
    eexists _, _; (split; [ev|]);
    unfold same_terminal, reports_of, after_refused;
    holds; rewrite app_nil_r; reflexivity.
Qed.

Lemma first_transition_wins_witness :
  exists w' F',
    (call_transition tcs0 (To_completed (PyInt 1)) ;;
     call_transition tcs0 To_cancelled ;;
     run_once 1 0 0) world_pending = Some (Returned Ran, w') /\
    futures w' !! 0 = Some F' /\
    cell_outcome F' = Some (Returned (PyInt 1)).
Proof.
  destruct (first_transition_wins world_pending tcs0 (To_completed (PyInt 1))
              To_cancelled _ 0 1 false [] eq_refl eq_refl eq_refl)
    as (w' & F' & H1 & H2 & _ & _ & H3 & _).
  exists w', F'. repeat split; assumption.
Defined.

(** X10. An observer that comes after the transition does not wait: on a
    source whose future is done, the task of an observer of [get_task]
    ends on its first step with what the cell holds. *)
Theorem late_observer_resolves_at_once
    (w : World) (self : TaskCompletionSource) (F : Future) (o : outcome pyobj)
    (me : thread_id) (Th : Thread) (l : loop_id) (reported : list report)
    (fuel : nat) :
  futures w !! future self = Some F ->
  cell_outcome F = Some o ->
  threads w !! me = Some Th ->
  running_loop Th = Some l ->
  loops w !! l = Some (mkLoop [] false false 0 false reported) ->
  3 <= fuel ->
  exists w' T,
    (let* h := get_task me self in
     let* t := observe me h in
     run_once fuel me l ;;
     ret t) w = Some (Returned (length (futures w)), w') /\
    futures w' !! length (futures w) = Some T /\
    cell_outcome T = Some o /\
    coros w' !! length (coros w) = Some CORO_CLOSED /\
    l_reported <$> loops w' !! l = Some reported.
Proof.
  intros HF Ho HTh Hrun HL Hfuel.
  pose proof (lookup_lt_Some _ _ _ HF) as HFlt.
  pose proof (lookup_lt_Some _ _ _ HTh) as HThlt.
  pose proof (lookup_lt_Some _ _ _ HL) as HLlt.
  destruct Th as [m r pl sc]. simpl in Hrun. subst r.
  destruct F as [lF sF rF eF cbF ltF coF].
  unfold cell_outcome in Ho. simpl in Ho.
  destruct sF; [discriminate Ho| |].
  - injection Ho as <-. eexists _, _. split; [ev|]. holds.
  - destruct eF as [[|e]|]; injection Ho as <-; eexists _, _;
      (split; [ev|]); holds.
Qed.

Lemma late_observer_witness :
  exists w' T,
    (let* h := get_task 0 tcs0 in
     let* t := observe 0 h in
     run_once 3 0 0 ;;
     ret t) world_completed = Some (Returned 1, w') /\
    futures w' !! 1 = Some T /\
    cell_outcome T = Some (Returned (PyInt 1)).
Proof.
  destruct (late_observer_resolves_at_once world_completed tcs0
              (mkFuture 0 FINISHED (PyInt 1) None [] false None)
              (Returned (PyInt 1)) 0 _ 0 [] 3
              eq_refl eq_refl eq_refl eq_refl eq_refl (le_n 3))
    as (w' & T & H1 & H2 & H3 & _).
  exists w', T. repeat split; assumption.
Defined.

(** ** No way out of a terminal state *)

(** The closure of any transition, run on a future that is done, keeps its
    terminal value and reports as the transition does. *)
Lemma closure_on_done_future
    (w : World) (self : TaskCompletionSource) (F : Future) (L : Loop)
    (tr : transition) (fuel : nat) (me : thread_id) :
  futures w !! future self = Some F ->
  is_pending F = false ->
  loops w !! loop self = Some L ->
  exists w' F' L',
    Handle_run fuel me (loop self) (H_action (action_of self tr)) w
      = Some (Returned tt, w') /\
    futures w' !! future self = Some F' /\
    is_pending F' = false /\
    same_terminal F F' /\
    loops w' !! loop self = Some L' /\
    l_reported L' = l_reported L ++ reports_of tr.
Proof.
  intros HF Hdone HL.
  pose proof (lookup_lt_Some _ _ _ HF) as HFlt.
  pose proof (lookup_lt_Some _ _ _ HL) as HLlt.
  destruct F as [lF sF rF eF cbF ltF coF].
  destruct sF; [discriminate Hdone| |];
    destruct tr as [v| |e]; eexists _, _, _; (split; [ev|]);
    unfold same_terminal, reports_of; holds; rewrite app_nil_r; reflexivity.
Qed.

(** X11. Once the future of a source is done, no sequence of further
    transitions changes its terminal value: however many closures of
    [SetResult], [SetCancelled] and [SetException] the loop runs, in any
    order, the state, result and exception of the cell stay what they were,
    every handle returns normally, and the loop's exception handler is
    given one [InvalidStateError] for each [SetResult] and [SetException]
    among them. *)
Theorem terminal_value_is_stable
    (self : TaskCompletionSource) (fuel : nat) (me : thread_id)
    (trs : list transition) (w : World) (F : Future) (L : Loop) :
  futures w !! future self = Some F ->
  is_pending F = false ->
  loops w !! loop self = Some L ->
  exists w' F' L',
    run_handles fuel me (loop self) (transition_handles self trs) w
      = Some (Returned tt, w') /\
    futures w' !! future self = Some F' /\
    same_terminal F F' /\
    loops w' !! loop self = Some L' /\
    l_reported L' = l_reported L ++ concat (map reports_of trs).
Proof.
  revert w F L. induction trs as [|tr trs IH]; intros w F L HF Hdone HL.
  - exists w, F, L. cbn. rewrite app_nil_r. repeat split; assumption.
  - destruct (closure_on_done_future w self F L tr fuel me HF Hdone HL)
      as (w1 & F1 & L1 & Hrun & HF1 & Hdone1 & (S1 & S2 & S3) & HL1 & Hrep1).
    destruct (IH w1 F1 L1 HF1 Hdone1 HL1)
      as (w' & F' & L' & Hrun' & HF' & (T1 & T2 & T3) & HL' & Hrep').
    exists w', F', L'. split.
    { unfold run_handles, transition_handles in *. cbn [map for_each].
      unfold bind at 1. rewrite Hrun. exact Hrun'. }
    split; [exact HF'|]. split.
    { unfold same_terminal. rewrite T1, T2, T3. auto. }
    split; [exact HL'|].
    rewrite Hrep', Hrep1. cbn [map concat]. rewrite app_assoc. reflexivity.
Qed.

Lemma terminal_value_is_stable_witness :
  exists w' F',
    run_handles 0 0 0
      (transition_handles tcs0 [To_cancelled; To_completed (PyInt 2)])
      world_completed = Some (Returned tt, w') /\
    futures w' !! 0 = Some F' /\
    same_terminal (mkFuture 0 FINISHED (PyInt 1) None [] false None) F'.
Proof.
  destruct (terminal_value_is_stable tcs0 0 0
              [To_cancelled; To_completed (PyInt 2)] world_completed _ _
              eq_refl eq_refl eq_refl)
    as (w' & F' & L' & H1 & H2 & H3 & _).
  exists w', F'. repeat split; solve [assumption | apply H3].
Defined.

Lemma transition_call_on_closed_loop_witness :
  call_transition tcs0 (To_completed (PyInt 1)) world_closed
  = Some (Raised (Exc (RuntimeError "Event loop is closed")), world_closed).
Proof.
  exact (transition_call_on_closed_loop world_closed tcs0 _
           (To_completed (PyInt 1)) eq_refl eq_refl).
Defined.

(** X13. [get_result(zero())] returns [None] on a thread that runs no loop,
    and so does [run_synchronously(zero())]: the coroutine of [zero] ends on
    the first turn of the loop that [asyncio.run] makes. *)
Theorem get_result_zero
    (w : World) (me : thread_id) (Th : Thread) (fuel : nat) :
  threads w !! me = Some Th ->
  running_loop Th = None ->
  loops_exist w ->
  8 <= fuel ->
  (exists w', (let* a := zero in get_result fuel me a) w
              = Some (Returned PyNone, w')) /\
  (exists w', (let* a := zero in run_synchronously fuel me a) w
              = Some (Returned tt, w')).
Proof.
  intros HTh Hrun Hok Hfuel.
  pose proof (lookup_lt_Some _ _ _ HTh) as HThlt.
  destruct Th as [m r pl sc]. simpl in Hrun. subst r.
  unfold loops_exist in Hok.
  split; eexists; ev.
Qed.

Lemma get_result_zero_witness :
  exists w', (let* a := zero in get_result 8 0 a) world_bare
             = Some (Returned PyNone, w').
Proof.
  exact (proj1 (get_result_zero world_bare 0 _ 8
                  eq_refl eq_refl (Forall_nil_2 _) (le_n 8))).
Defined.

(** ** Failures nobody awaits, and [get_awaiter] on a task *)

(** X14. An exception bound by [SetException] that nobody awaits is not
    lost, for any exception the host lets a future hold (any but a
    [StopIteration]): the loop's turn stores it in the future and reports
    nothing yet, and when the future is collected, its destructor gives the
    exception to the loop's exception handler. *)
Theorem unobserved_exception_is_reported
    (w : World) (self : TaskCompletionSource) (e : Exception)
    (me : thread_id) (fuel : nat) (parked : bool) (reported : list report) :
  futures w !! future self = Some (pending_future (loop self) []) ->
  loops w !! loop self = Some (mkLoop [] false false 0 parked reported) ->
  exists w1 w2,
    (SetException self (Plain e) ;; run_once fuel me (loop self)) w
      = Some (Returned Ran, w1) /\
    l_reported <$> loops w1 !! loop self = Some reported /\
    Future_del (future self) w1 = Some (Returned tt, w2) /\
    l_reported <$> loops w2 !! loop self
      = Some (reported
              ++ [mkReport "Future exception was never retrieved" (Some (Exc e))]).
Proof.
  intros HF HL.
  pose proof (lookup_lt_Some _ _ _ HF) as HFlt.
  pose proof (lookup_lt_Some _ _ _ HL) as HLlt.
  destruct parked; eexists _, _.
  all: split; [ev|].
  all: split; [holds|].
  all: split; [ev|].
  all: holds.
Qed.

Lemma unobserved_exception_witness :
  exists w1 w2,
    (SetException tcs0 (Plain boom) ;; run_once 1 0 0) world_pending
      = Some (Returned Ran, w1) /\
    l_reported <$> loops w1 !! 0 = Some [] /\
    Future_del 0 w1 = Some (Returned tt, w2) /\
    l_reported <$> loops w2 !! 0
      = Some [mkReport "Future exception was never retrieved" (Some (Exc boom))].
Proof.
  exact (unobserved_exception_is_reported world_pending tcs0 boom 0 1 false []
           eq_refl eq_refl).
Defined.

(** X15. Once an observer has awaited the task of a source that failed
    with an exception bound by [SetException] (any but a [StopIteration],
    which the host lets no future hold), the source's future counts as
    retrieved: collecting it reports nothing. *)
Theorem observed_exception_is_not_reported_again
    (w : World) (self : TaskCompletionSource) (e : Exception)
    (t : fut_id) (c : coro_id) (me : thread_id) (fuel : nat)
    (parked : bool) (reported : list report) :
  futures w !! future self = Some (pending_future (loop self) [Task_wakeup t]) ->
  futures w !! t = Some (pending_task (loop self) c) ->
  t <> future self ->
  coros w !! c = Some (CORO_SUSPENDED (Aw_future (future self)) return_outcome) ->
  loops w !! loop self = Some (mkLoop [] false false 0 parked reported) ->
  3 <= fuel ->
  exists w1 w2 w3,
    SetException self (Plain e) w = Some (Returned tt, w1) /\
    run_once fuel me (loop self) w1 = Some (Returned Ran, w2) /\
    run_once fuel me (loop self) w2 = Some (Returned Ran, w3) /\
    cell_outcome <$> futures w3 !! future self = Some (Some (Raised (Exc e))) /\
    Future_del (future self) w3 = Some (Returned tt, w3).
Proof.
  intros HF HT Hne Hc HL Hfuel.
  destruct (suspended_observer_resolves w self t c me fuel parked reported
              HF HT Hne Hc HL Hfuel (To_faulted (Plain e)) _ eq_refl)
    as (w1 & w2 & w3 & H1 & H2 & H3 & _ & H5 & _).
  exists w1, w2, w3.
  split; [exact H1|]. split; [exact H2|]. split; [exact H3|].
  split; [rewrite H5; reflexivity|].
  unfold Future_del, bind, get_future. rewrite H5. reflexivity.
Qed.

Lemma observed_exception_witness :
  exists w1 w2 w3,
    SetException tcs0 (Plain boom) world_observed = Some (Returned tt, w1) /\
    run_once 3 0 0 w1 = Some (Returned Ran, w2) /\
    run_once 3 0 0 w2 = Some (Returned Ran, w3) /\
    cell_outcome <$> futures w3 !! 0 = Some (Some (Raised (Exc boom))) /\
    Future_del 0 w3 = Some (Returned tt, w3).
Proof.
  exact (observed_exception_is_not_reported_again
           world_observed tcs0 boom 1 0 0 3 true []
           eq_refl eq_refl (fun H => O_S 0 (eq_sym H)) eq_refl eq_refl (le_n 3)).
Defined.

(** X16. [get_awaiter] on the task of a source forwards what the task
    gives.  An observer that awaits [get_awaiter(get_task())] of a pending
    source waits; [ensure_future] returns the source's future as it is, so
    no further task is made; and after the transition and two turns of the
    loop the observer's task ends as the transition says, or, under a
    [SetException] with a [StopIteration], which the host refuses, is still
    waiting. *)
Theorem get_awaiter_forwards_task
    (w : World) (self : TaskCompletionSource) (tr : transition)
    (me : thread_id) (fuel : nat) (Th : Thread) (reported : list report) :
  futures w !! future self = Some (pending_future (loop self) []) ->
  loops w !! loop self = Some (mkLoop [] false false 0 false reported) ->
  threads w !! me = Some Th ->
  running_loop Th = Some (loop self) ->
  5 <= fuel ->
  exists w' T,
    (let* h := get_task me self in
     let* b := get_awaiter h in
     let* t := observe me b in
     run_once fuel me (loop self) ;;
     call_transition self tr ;;
     run_once fuel me (loop self) ;;
     run_once fuel me (loop self) ;;
     ret t) w = Some (Returned (length (futures w)), w') /\
    futures w' !! length (futures w) = Some T /\
    cell_outcome T = transition_outcome tr /\
    length (futures w') = S (length (futures w)).
Proof.
  intros HF HL HTh Hrun Hfuel.
  pose proof (lookup_lt_Some _ _ _ HF) as HFlt.
  pose proof (lookup_lt_Some _ _ _ HL) as HLlt.
  pose proof (lookup_lt_Some _ _ _ HTh) as HThlt.
  destruct Th as [m r pl sc]. simpl in Hrun. subst r.
  destruct tr as [v| |[e|v]]; eexists _, _.
  all: split; [ev|].
  all: split; [holds|].
  all: split; [holds|].
  all: norm; repeat rewrite length_app; repeat rewrite length_insert;
    cbn [length]; lia.
Qed.

Lemma get_awaiter_forwards_task_witness :
  exists w' T,
    (let* h := get_task 0 tcs0 in
     let* b := get_awaiter h in
     let* t := observe 0 b in
     run_once 5 0 0 ;;
     call_transition tcs0 (To_faulted (Plain boom)) ;;
     run_once 5 0 0 ;;
     run_once 5 0 0 ;;
     ret t) world_pending = Some (Returned 1, w') /\
    futures w' !! 1 = Some T /\
    cell_outcome T = Some (Raised (Exc boom)).
Proof.
  destruct (get_awaiter_forwards_task world_pending tcs0 (To_faulted (Plain boom))
              0 5 _ [] eq_refl eq_refl eq_refl eq_refl (le_n 5))
    as (w' & T & H1 & H2 & H3 & _).
  exists w', T. repeat split; assumption.
Defined.

(** ** An exception the host refuses *)

(** X17. [SetException] with a [StopIteration] settles nothing.  On a
    pending source with a suspended observer the call returns [None] like
    any other; the loop's turn runs the closure, in which the host's
    [set_exception] raises [TypeError]; the loop's exception handler is
    given that, the future stays pending with its observer still
    registered, and with nothing else to do the loop's next turn parks: the
    observer goes on waiting. *)
Theorem StopIteration_is_refused
    (w : World) (self : TaskCompletionSource) (value : pyobj)
    (t : fut_id) (c : coro_id) (me : thread_id) (fuel : nat)
    (parked : bool) (reported : list report) :
  futures w !! future self = Some (pending_future (loop self) [Task_wakeup t]) ->
  futures w !! t = Some (pending_task (loop self) c) ->
  t <> future self ->
  loops w !! loop self = Some (mkLoop [] false false 0 parked reported) ->
  exists w1 w2 w3,
    SetException self (Stop_iteration value) w = Some (Returned tt, w1) /\
    run_once fuel me (loop self) w1 = Some (Returned Ran, w2) /\
    futures w2 = futures w /\
    coros w2 = coros w /\
    l_reported <$> loops w2 !! loop self
      = Some (reported ++ [stop_iteration_report]) /\
    run_once fuel me (loop self) w2 = Some (Returned Parked, w3) /\
    futures w3 = futures w /\
    coros w3 = coros w.
Proof.
  intros HF HT Hne HL.
  pose proof (lookup_lt_Some _ _ _ HF) as HFlt.
  pose proof (lookup_lt_Some _ _ _ HT) as HTlt.
  pose proof (lookup_lt_Some _ _ _ HL) as HLlt.
  destruct parked; eexists _, _, _.
  all: split; [ev|].
  all: split; [ev|].
  all: split; [reflexivity|].
  all: split; [reflexivity|].
  all: split; [holds|].
  all: split; [ev|].
  all: split; reflexivity.
Qed.

Lemma StopIteration_is_refused_witness :
  exists w1 w2 w3,
    SetException tcs0 (Stop_iteration PyNone) world_observed
      = Some (Returned tt, w1) /\
    run_once 3 0 0 w1 = Some (Returned Ran, w2) /\
    futures w2 = futures world_observed /\
    l_reported <$> loops w2 !! 0 = Some [stop_iteration_report] /\
    run_once 3 0 0 w2 = Some (Returned Parked, w3) /\
    futures w3 = futures world_observed.
Proof.
  destruct (StopIteration_is_refused world_observed tcs0 PyNone 1 0 0 3 true []
              eq_refl eq_refl (fun H => O_S 0 (eq_sym H)) eq_refl)
    as (w1 & w2 & w3 & H1 & H2 & H3 & _ & H4 & H5 & H6 & _).
  exists w1, w2, w3. repeat split; assumption.
Defined.
